(** * report_generator_bot: ingestion, section orchestration, rendering
      and compliance parsing of the sustainability report builder.

    A shallow embedding of [src/report_generator_bot.py].  Python text
    ([str]) is a list of Unicode code points; dictionaries keyed by text are
    finite maps; the calls into Streamlit and into the generation service
    are recorded in an event trace threaded through a small state monad. *)

From Stdlib Require Import ZArith NArith Ascii String DecimalString SpecFloat Lia.
From stdpp Require Import gmap list.

Set Warnings "-register-all".

Open Scope list_scope.
Open Scope N_scope.

(** ** Python text *)

(** A Python [str] is a sequence of code points. *)
Abbreviation pystr := (list N).

(** ASCII literals of the source, as text. *)
Definition py (s : string) : pystr :=
  List.map N_of_ascii (list_ascii_of_string s).

(** The line break of the source's escape sequence. *)
Definition nl : pystr := [10].

(** [str.isspace] for one code point: the ASCII white space of CPython and
    the Unicode code points of bidirectional type WS, B or S or of category
    Zs. *)
Definition isspace (c : N) : bool :=
  ((9 <=? c) && (c <=? 13)) || ((28 <=? c) && (c <=? 32))
  || (c =? 133) || (c =? 160) || (c =? 5760)
  || ((8192 <=? c) && (c <=? 8202))
  || (c =? 8232) || (c =? 8233) || (c =? 8239) || (c =? 8287) || (c =? 12288).

Fixpoint lstrip (s : pystr) : pystr :=
  match s with
  | c :: r => if isspace c then lstrip r else s
  | [] => []
  end.

Definition rstrip (s : pystr) : pystr := rev (lstrip (rev s)).

(** [s.strip()] *)
Definition strip (s : pystr) : pystr := rstrip (lstrip s).

(** Truth value of a text: non-empty. *)
Definition truthy (s : pystr) : bool :=
  match s with [] => false | _ :: _ => true end.

Definition is_ascii (c : N) : bool := c <? 128.

Definition ascii_lower (c : N) : N :=
  if (65 <=? c) && (c <=? 90) then c + 32 else c.

Definition ascii_isalnum (c : N) : bool :=
  ((48 <=? c) && (c <=? 57)) || ((65 <=? c) && (c <=? 90))
  || ((97 <=? c) && (c <=? 122)).

(** The part of the Unicode character database that [str.lower] and
    [str.isalnum] consult outside ASCII.  It belongs to the interpreter, not
    to the program: the development is parametric in it. *)
Class UnicodeDB := {
  (** [s.lower()] for a text [s] holding a code point outside ASCII *)
  unicode_lower : pystr -> pystr;
  (** [ch.isalnum()] for a code point outside ASCII *)
  unicode_isalnum : N -> bool
}.

(** A database under which no code point outside ASCII is alphanumeric or
    cased; it serves to run the program on ASCII inputs. *)
Definition ascii_db : UnicodeDB :=
  {| unicode_lower := fun s => s; unicode_isalnum := fun _ => false |}.

Section Text.
Context {udb : UnicodeDB}.

(** [s.lower()] *)
Definition lower (s : pystr) : pystr :=
  if forallb is_ascii s then List.map ascii_lower s else unicode_lower s.

(** [ch.isalnum()] *)
Definition isalnum (c : N) : bool :=
  if is_ascii c then ascii_isalnum c else unicode_isalnum c.

(** [normalize_key]: lowercase, keep the alphanumeric characters. *)
Definition normalize_key (s : pystr) : pystr :=
  List.filter isalnum (lower s).
End Text.

(** ** The static tables *)

(** [predefined_keys]: normalized label to questionnaire key, in the order
    of the dictionary display. *)
Definition predefined_keys_items : list (pystr * pystr) :=
  [ (py "companyname", py "company_name");
    (py "industry", py "industry");
    (py "overview", py "overview");
    (py "governance", py "governance");
    (py "ethics", py "ethics");
    (py "businessmodel", py "business_model");
    (py "strategy", py "strategy");
    (py "stakeholderengagement", py "stakeholder_engagement");
    (py "materiality", py "materiality");
    (py "environmentalperformance", py "environmental_performance");
    (py "environmentaltargets", py "environmental_targets");
    (py "socialperformance", py "social_performance");
    (py "communityengagement", py "community_engagement");
    (py "laborpractices", py "labor_practices");
    (py "humanrights", py "human_rights");
    (py "supplychain", py "supply_chain");
    (py "supplierevaluation", py "supplier_evaluation");
    (py "financialsustainability", py "financial_sustainability");
    (py "reportingframeworks", py "reporting_frameworks");
    (py "dataassurance", py "data_assurance");
    (py "kpi", py "kpi");
    (py "futuregoals", py "future_goals");
    (py "innovation", py "innovation");
    (py "riskmanagement", py "risk_management") ].

Definition predefined_keys : gmap pystr pystr :=
  list_to_map predefined_keys_items.

(** [questions]: the questionnaire, a list of pairs (key, question text). *)
Definition questions : list (pystr * pystr) :=
  [ (py "company_name", py "What is the name of your company?");
    (py "industry", py "What industry does your company operate in?");
    (py "overview", py "Briefly describe your company's main products or services and the regions/countries where you operate.");
    (py "governance", py "Describe your company's governance structure, including board composition and sustainability oversight.");
    (py "ethics", py "What policies and practices are in place to ensure ethical behavior and prevent corruption?");
    (py "business_model", py "Describe your business model and how it integrates sustainability considerations.");
    (py "strategy", py "What is your company's overall sustainability strategy and long-term vision? How does sustainability factor into strategic decision-making?");
    (py "stakeholder_engagement", py "Who are the key stakeholders your company engages with (e.g., employees, customers, suppliers, community), and how are they involved in your sustainability initiatives?");
    (py "materiality", py "Describe the materiality assessment process used to identify key sustainability issues for your company.");
    (py "environmental_performance", py "Detail your company's environmental performance, including greenhouse gas emissions, energy consumption, water usage, waste management, and resource efficiency.");
    (py "environmental_targets", py "What environmental targets or goals has your company set, and how are these measured?");
    (py "social_performance", py "Describe your company's social policies and practices, including employee well-being, diversity, and inclusion.");
    (py "community_engagement", py "How does your company contribute to and engage with the local communities in which it operates?");
    (py "labor_practices", py "Outline your company's approach to labor practices, including workplace safety, training, and development.");
    (py "human_rights", py "How does your company ensure compliance with human rights standards and prevent human rights abuses in your operations and supply chain?");
    (py "supply_chain", py "Describe how your company assesses and manages sustainability risks in its supply chain.");
    (py "supplier_evaluation", py "What criteria do you use to evaluate the sustainability performance of your suppliers?");
    (py "financial_sustainability", py "What financial risks and opportunities related to sustainability does your company face, and how are these integrated into your financial planning?");
    (py "reporting_frameworks", py "Which sustainability reporting frameworks or standards does your company currently use or intend to use?");
    (py "data_assurance", py "How is the sustainability data collected, verified, and assured (e.g., through internal audits or external assurance)?");
    (py "kpi", py "What key performance indicators (KPIs) do you monitor to track your sustainability performance?");
    (py "future_goals", py "What are your company's sustainability goals for the next 5-10 years, and what strategies are in place to achieve them?");
    (py "innovation", py "Describe any innovative initiatives or technologies your company is implementing to improve sustainability performance.");
    (py "risk_management", py "How does your company manage and mitigate sustainability-related risks, including those associated with climate change?") ].

(** The ["Key"] column of [template_df], the downloadable template. *)
Definition template_labels : list pystr :=
  [ py "Company Name"; py "Industry"; py "Overview"; py "Governance"; py "Ethics";
    py "Business Model"; py "Strategy"; py "Stakeholder Engagement"; py "Materiality";
    py "Environmental Performance"; py "Environmental Targets"; py "Social Performance";
    py "Community Engagement"; py "Labor Practices"; py "Human Rights"; py "Supply Chain";
    py "Supplier Evaluation"; py "Financial Sustainability"; py "Reporting Frameworks";
    py "Data Assurance"; py "KPI"; py "Future Goals"; py "Innovation"; py "Risk Management" ].

(** ** Exceptions and the event trace *)

(** The outcome of a call that may raise; an exception is carried as the
    text its formatting yields. *)
Inductive result (A : Type) : Type :=
| Ok (a : A)
| Raise (e : pystr).
Arguments Ok {A} a.
Arguments Raise {A} e.

(** What the program does to the outside: Streamlit calls and calls of the
    generation service, in the order they happen. *)
Inductive event : Type :=
| StError (msg : pystr)       (* st.error(msg) *)
| StProgress (v : Z)          (* st.progress(v): creates the progress bar *)
| BarProgress (v : Z)         (* progress_bar.progress(v) *)
| LlmCall (model prompt : pystr). (* ChatOpenAI(model=...)(messages), one user message *)

Definition trace := list event.

(** State monad over the trace. *)
Definition M (A : Type) : Type := trace -> A * trace.

Definition ret {A} (a : A) : M A := fun t => (a, t).

Definition bind {A B} (m : M A) (k : A -> M B) : M B :=
  fun t => let (a, t') := m t in k a t'.

Definition emit (e : event) : M unit := fun t => (tt, t ++ [e]).

Declare Scope py_scope.
Delimit Scope py_scope with py.
Notation "x <- c1 ;; c2" := (bind c1 (fun x => c2))
  (at level 100, c1 at next level, right associativity) : py_scope.
Notation "c1 ;;; c2" := (bind c1 (fun _ => c2))
  (at level 100, right associativity) : py_scope.

(** Run a computation from the empty trace. *)
Definition run {A} (m : M A) : A * trace := m [].

(** ** The tabular source *)

(** A value found in a row of the frame read by [pd.read_excel]. *)
Inductive cell : Type :=
| CStr (s : pystr)            (* text *)
| CInt (z : Z)                (* an integer *)
| CBool (b : bool)            (* a boolean *)
| CNaN                        (* the float NaN: a missing or empty cell *)
| COther (rendering : pystr). (* any other value, with what [str] makes of it *)

(** [str(v)] for a cell value. *)
Definition py_str (v : cell) : pystr :=
  match v with
  | CStr s => s
  | CInt z => py (NilZero.string_of_int (Z.to_int z))
  | CBool true => py "True"
  | CBool false => py "False"
  | CNaN => py "nan"
  | COther r => r
  end.

(** A frame: the column labels and the rows, each row holding one value per
    column. *)
Record DataFrame : Type := {
  columns : list cell;
  rows : list (list cell)
}.

(** Rectangular frames, the only ones [pd.read_excel] builds. *)
Definition well_formed (df : DataFrame) : Prop :=
  Forall (fun row => length row = length (columns df)) (rows df).

Definition is_label (name : pystr) (c : cell) : bool :=
  match c with
  | CStr s => bool_decide (s = name)
  | _ => false
  end.

(** [name in df.columns] *)
Definition has_column (name : pystr) (df : DataFrame) : bool :=
  existsb (is_label name) (columns df).

Fixpoint label_index (name : pystr) (cols : list cell) : option nat :=
  match cols with
  | [] => None
  | c :: r => if is_label name c then Some O else S <$> label_index name r
  end.

(** [row[name]]: the value under the column labelled [name].  On a
    rectangular frame that has the column it never raises. *)
Definition row_get (df : DataFrame) (row : list cell) (name : pystr) : result cell :=
  match label_index name (columns df) with
  | Some i => match row !! i with
              | Some v => Ok v
              | None => Raise (py "KeyError")
              end
  | None => Raise (py "KeyError")
  end.

(** [row.iloc[i]] *)
Definition row_iloc (row : list cell) (i : nat) : result cell :=
  match row !! i with
  | Some v => Ok v
  | None => Raise (py "single positional indexer is out-of-bounds")
  end.

Section Ingestion.
Context {udb : UnicodeDB}.

(** The body shared by the two loops: normalize the label and, when it is
    a known one, assign the value to its questionnaire key. *)
Definition store (key_candidate value : pystr) (result : gmap pystr pystr)
  : gmap pystr pystr :=
  let norm := normalize_key key_candidate in
  match predefined_keys !! norm with
  | Some k => <[k := value]> result
  | None => result
  end.

(** The loop over the rows when the frame has the columns Key and Value. *)
Fixpoint ingest_named (df : DataFrame) (rs : list (list cell))
    (result : gmap pystr pystr) : gmap pystr pystr * option pystr :=
  match rs with
  | [] => (result, None)
  | row :: rest =>
    match row_get df row (py "Key") with
    | Raise e => (result, Some e)
    | Ok k =>
      let key_candidate := py_str k in
      match row_get df row (py "Value") with
      | Raise e => (result, Some e)
      | Ok v =>
        let value := py_str v in
        ingest_named df rest (store key_candidate value result)
      end
    end
  end.

(** The loop over the rows otherwise: the first two columns by position. *)
Fixpoint ingest_positional (rs : list (list cell))
    (result : gmap pystr pystr) : gmap pystr pystr * option pystr :=
  match rs with
  | [] => (result, None)
  | row :: rest =>
    match row_iloc row 0 with
    | Raise e => (result, Some e)
    | Ok k =>
      let key_candidate := py_str k in
      match (if (1 <? length row)%nat
             then match row_iloc row 1 with
                  | Ok v => Ok (py_str v)
                  | Raise e => Raise e
                  end
             else Ok []) with
      | Raise e => (result, Some e)
      | Ok value => ingest_positional rest (store key_candidate value result)
      end
    end
  end.

(** The body of the [try] statement of [parse_uploaded_excel], given what
    [pd.read_excel(uploaded_file)] does: return a frame or raise.  The
    dictionary [result] is updated in place, so an exception leaves in it
    what the earlier rows stored; the second component is the exception
    raised, if any. *)
Definition try_body (read_excel : result DataFrame)
    (result : gmap pystr pystr) : gmap pystr pystr * option pystr :=
  match read_excel with
  | Raise e => (result, Some e)
  | Ok df =>
    if has_column (py "Key") df && has_column (py "Value") df
    then ingest_named df (rows df) result
    else ingest_positional (rows df) result
  end.

(** [parse_uploaded_excel] *)
Definition parse_uploaded_excel (read_excel : result DataFrame)
  : M (gmap pystr pystr) :=
  let result : gmap pystr pystr := ∅ in
  let (result, raised) := try_body read_excel result in
  match raised with
  | Some e =>
    (emit (StError (py "Error processing Excel file: " ++ e)) ;;;
     ret result)%py
  | None => ret result
  end.
End Ingestion.

(** ** The generation service *)

Definition is_llm_call (e : event) : bool :=
  match e with LlmCall _ _ => true | _ => false end.

Definition llm_calls (t : trace) : nat := length (List.filter is_llm_call t).

(** ** Progress arithmetic: binary64 floats *)

Definition float_of_int (z : Z) : spec_float :=
  binary_normalize 53 1024 z 0 false.

(** [a / b] on integers: the quotient as a float. *)
Definition truediv (a b : Z) : spec_float :=
  SFdiv 53 1024 (float_of_int a) (float_of_int b).

Definition float_mul (x y : spec_float) : spec_float := SFmul 53 1024 x y.

(** [int(x)]: truncation toward zero (the program never reaches [int] of
    an infinity or a NaN, which raises; they are sent to 0 here). *)
Definition int_of_float (x : spec_float) : Z :=
  match x with
  | S754_finite s m e =>
    let v := (if (0 <=? e)%Z then Z.pos m * 2 ^ e
              else Z.pos m / 2 ^ (- e))%Z in
    if s then (- v)%Z else v
  | _ => 0%Z
  end.

(** [int((completed / total_sections) * 100)] *)
Definition progress_percent (completed total_sections : Z) : Z :=
  int_of_float (float_mul (truediv completed total_sections) (float_of_int 100)).

(** [report_data.get(key, default)] *)
Definition dict_get (d : gmap pystr pystr) (key default : pystr) : pystr :=
  match d !! key with Some v => v | None => default end.

Definition consultant : pystr :=
  py "You are a professional sustainability consultant. ".

(** The chain of comparisons on [standard] in [generate_section]. *)
Definition prompt_intro (standard : pystr) : pystr :=
  if bool_decide (standard = py "CSRD") then
    consultant ++ py "Based on the provided answer, generate a detailed CSRD-compliant report section."
  else if bool_decide (standard = py "GRI") then
    consultant ++ py "Based on the provided answer, generate a detailed GRI-compliant report section."
  else if bool_decide (standard = py "TCFD") then
    consultant ++ py "Based on the provided answer, generate a detailed TCFD-aligned report section."
  else if bool_decide (standard = py "SASB") then
    consultant ++ py "Based on the provided answer, generate a detailed SASB-compliant report section."
  else if bool_decide (standard = py "Integrated Reporting (<IR>)") then
    consultant ++ py "Based on the provided answer, generate a detailed Integrated Reporting (<IR>)-compliant report section."
  else if bool_decide (standard = py "CDP") then
    consultant ++ py "Based on the provided answer, generate a detailed CDP-compliant report section focused on environmental transparency."
  else if bool_decide (standard = py "AA1000") then
    consultant ++ py "Based on the provided answer, generate a detailed AA1000-compliant report section emphasizing stakeholder engagement and accountability."
  else if bool_decide (standard = py "ISO 26000") then
    consultant ++ py "Based on the provided answer, generate a detailed report section aligned with ISO 26000 guidance on social responsibility."
  else if bool_decide (standard = py "ISSB") then
    consultant ++ py "Based on the provided answer, generate a detailed ISSB-compliant report section addressing both climate-related and general sustainability disclosures."
  else if bool_decide (standard = py "ESRS") then
    consultant ++ py "Based on the provided answer, generate a detailed ESRS-compliant report section covering environmental, social, and governance disclosures."
  else
    consultant ++ py "Based on the provided answer, generate a detailed report section.".

Definition section_prompt (question_text answer standard : pystr) : pystr :=
  prompt_intro standard ++ nl ++ nl
  ++ py "Section: " ++ question_text ++ nl
  ++ py "Provided Answer: " ++ answer ++ nl ++ nl
  ++ py "Please write a comprehensive section on this topic.".

Section Generation.
(** The generation service: what the call numbered [n] (counting the
    earlier calls of the run) on model [model] does with a prompt: return
    the content of the response or raise. *)
Variable llm : pystr -> nat -> pystr -> result pystr.

(** Build the client and call it with the one user message. *)
Definition call_llm (model prompt : pystr) : M (result pystr) :=
  fun t => (llm model (llm_calls t) prompt, t ++ [LlmCall model prompt]).

(** [generate_section] *)
Definition generate_section (section_key question_text answer standard : pystr)
  : M pystr :=
  let prompt := section_prompt question_text answer standard in
  (response <- call_llm (py "gpt-4-turbo") prompt ;;
   match response with
   | Ok content => ret content
   | Raise e =>
     emit (StError (py "An error occurred during report generation: " ++ e)) ;;;
     ret []
   end)%py.

(** The slots with content: [answered_keys]. *)
Definition answered_keys (report_data : gmap pystr pystr) : list pystr :=
  List.map fst
    (List.filter (fun q => truthy (strip (dict_get report_data (fst q) [])))
                 questions).

(** The loop of [generate_full_report] over (a suffix of) the
    questionnaire, with the accumulator and the counter it updates. *)
Fixpoint report_loop (qs : list (pystr * pystr))
    (report_data : gmap pystr pystr) (standard : pystr) (total_sections : Z)
    (full_report : pystr) (completed : Z) : M pystr :=
  match qs with
  | [] => ret full_report
  | (key, question_text) :: rest =>
    let answer := dict_get report_data key [] in
    if truthy (strip answer) then
      (section_content <- generate_section key question_text answer standard ;;
       let full_report := full_report ++ py "# " ++ section_content ++ nl ++ nl in
       let completed := (completed + 1)%Z in
       emit (BarProgress (progress_percent completed total_sections)) ;;;
       report_loop rest report_data standard total_sections full_report completed)%py
    else
      report_loop rest report_data standard total_sections full_report completed
  end.

(** [generate_full_report] *)
Definition generate_full_report (report_data : gmap pystr pystr)
    (standard : pystr) : M pystr :=
  let total_sections := Z.of_nat (length (answered_keys report_data)) in
  if (total_sections =? 0)%Z then
    (emit (StError (py "No responses provided.")) ;;; ret [])%py
  else
    (emit (StProgress 0) ;;;
     report_loop questions report_data standard total_sections [] 0%Z)%py.
End Generation.

(** ** Values of the evaluation response, and the JSON decoder *)

(** The Python values [json.loads] builds.  A dictionary is the list of its
    items in insertion order, keys distinct. *)
Inductive pyval : Type :=
| PyNone
| PyBool (b : bool)
| PyInt (z : Z)
| PyFloat (lexeme : pystr)     (* a float, by the text it was read from *)
| PyStr (s : pystr)
| PyList (items : list pyval)
| PyDict (items : list (pystr * pyval)).

(** [d[k] = v] on the items of a dictionary. *)
Fixpoint dict_set (k : pystr) (v : pyval) (d : list (pystr * pyval))
  : list (pystr * pyval) :=
  match d with
  | [] => [(k, v)]
  | (k', v') :: r =>
    if bool_decide (k' = k) then (k', v) :: r else (k', v') :: dict_set k v r
  end.

(** Limits of the running interpreter that the decoder meets. *)
Class Interpreter := {
  (** how many nested containers the decoder may enter before RecursionError *)
  recursion_depth : nat;
  (** [sys.get_int_max_str_digits()], 0 for no limit *)
  int_max_str_digits : nat
}.

Definition default_interpreter : Interpreter :=
  {| recursion_depth := 900; int_max_str_digits := 4300 |}.

Module Json.

Definition is_ws (c : N) : bool :=
  (c =? 32) || (c =? 9) || (c =? 10) || (c =? 13).

Fixpoint skip_ws (s : pystr) : pystr :=
  match s with
  | c :: r => if is_ws c then skip_ws r else s
  | [] => []
  end.

Definition is_digit (c : N) : bool := (48 <=? c) && (c <=? 57).

Definition hex_digit (c : N) : option N :=
  if is_digit c then Some (c - 48)
  else if (97 <=? c) && (c <=? 102) then Some (c - 87)
  else if (65 <=? c) && (c <=? 70) then Some (c - 55)
  else None.

Definition hex4 (a b c d : N) : option N :=
  match hex_digit a, hex_digit b, hex_digit c, hex_digit d with
  | Some x, Some y, Some z, Some w => Some (((x * 16 + y) * 16 + z) * 16 + w)
  | _, _, _, _ => None
  end.

(** The character after a backslash, other than [u]. *)
Definition unescape (e : N) : option N :=
  if e =? 34 then Some 34 else if e =? 92 then Some 92
  else if e =? 47 then Some 47 else if e =? 98 then Some 8
  else if e =? 102 then Some 12 else if e =? 110 then Some 10
  else if e =? 114 then Some 13 else if e =? 116 then Some 9
  else None.

Definition is_high_surrogate (u : N) : bool := (55296 <=? u) && (u <=? 56319).
Definition is_low_surrogate (u : N) : bool := (56320 <=? u) && (u <=? 57343).
Definition join_surrogates (hi lo : N) : N :=
  65536 + (hi - 55296) * 1024 + (lo - 56320).

(** The text of a string literal after its opening quote, in strict
    mode; [acc] holds the decoded characters, last first. *)
Fixpoint scanstring (s : pystr) (acc : pystr) : option (pystr * pystr) :=
  match s with
  | [] => None
  | c :: r =>
    if c =? 34 then Some (rev acc, r)
    else if c =? 92 then
      match r with
      | [] => None
      | e :: r1 =>
        if e =? 117 then
          match r1 with
          | h1 :: h2 :: h3 :: h4 :: r2 =>
            match hex4 h1 h2 h3 h4 with
            | None => None
            | Some u =>
              if is_high_surrogate u then
                match r2 with
                | b :: x :: g1 :: g2 :: g3 :: g4 :: r3 =>
                  if (b =? 92) && (x =? 117) then
                    match hex4 g1 g2 g3 g4 with
                    | None => None
                    | Some u2 =>
                      if is_low_surrogate u2
                      then scanstring r3 (join_surrogates u u2 :: acc)
                      else scanstring r2 (u :: acc)
                    end
                  else scanstring r2 (u :: acc)
                | _ => scanstring r2 (u :: acc)
                end
              else scanstring r2 (u :: acc)
            end
          | _ => None
          end
        else
          match unescape e with
          | Some x => scanstring r1 (x :: acc)
          | None => None
          end
      end
    else if c <? 32 then None
    else scanstring r (c :: acc)
  end.

Fixpoint span_digits (s : pystr) : pystr * pystr :=
  match s with
  | c :: r =>
    if is_digit c then let (d, r') := span_digits r in (c :: d, r')
    else ([], s)
  | [] => ([], [])
  end.

(** The integer part of a number: an optional minus sign, then 0 or a
    run of digits that does not start with 0. *)
Definition match_int (s : pystr) : option (pystr * pystr) :=
  let (sign, s1) :=
    match s with
    | c :: r => if c =? 45 then ([45], r) else ([], s)
    | [] => ([], s)
    end in
  match s1 with
  | c :: r =>
    if c =? 48 then Some (sign ++ [48], r)
    else if is_digit c then
      let (d, r') := span_digits r in Some (sign ++ c :: d, r')
    else None
  | [] => None
  end.

(** The optional fraction: a point and at least one digit. *)
Definition match_frac (s : pystr) : pystr * pystr :=
  match s with
  | c :: r =>
    if c =? 46 then
      let (d, r') := span_digits r in
      match d with [] => ([], s) | _ :: _ => (c :: d, r') end
    else ([], s)
  | [] => ([], s)
  end.

(** The optional exponent: e or E, an optional sign, at least one digit. *)
Definition match_exp (s : pystr) : pystr * pystr :=
  match s with
  | c :: r =>
    if (c =? 101) || (c =? 69) then
      let (sg, r1) :=
        match r with
        | c2 :: r2 => if (c2 =? 43) || (c2 =? 45) then ([c2], r2) else ([], r)
        | [] => ([], r)
        end in
      let (d, r') := span_digits r1 in
      match d with [] => ([], s) | _ :: _ => (c :: sg ++ d, r') end
    else ([], s)
  | [] => ([], s)
  end.

Definition digits_value (d : pystr) : Z :=
  fold_left (fun acc c => (acc * 10 + Z.of_N (c - 48))%Z) d 0%Z.

(** [int(text)] for the integer part matched above; it raises when the
    text has more digits than the interpreter converts. *)
Definition int_of_text {interp : Interpreter} (t : pystr) : option Z :=
  let (neg, d) :=
    match t with
    | c :: r => if c =? 45 then (true, r) else (false, t)
    | [] => (false, t)
    end in
  if negb (int_max_str_digits =? 0)%nat && (int_max_str_digits <? length d)%nat
  then None
  else Some (if neg then (- digits_value d)%Z else digits_value d).

Definition match_number {interp : Interpreter} (s : pystr) : option (pyval * pystr) :=
  match match_int s with
  | None => None
  | Some (i, s1) =>
    let (f, s2) := match_frac s1 in
    let (e, s3) := match_exp s2 in
    match f, e with
    | [], [] =>
      match int_of_text i with
      | Some z => Some (PyInt z, s3)
      | None => None
      end
    | _, _ => Some (PyFloat (i ++ f ++ e), s3)
    end
  end.

Fixpoint strip_prefix (p s : pystr) : option pystr :=
  match p, s with
  | [], _ => Some s
  | a :: p', b :: s' => if a =? b then strip_prefix p' s' else None
  | _ :: _, [] => None
  end.

Section Containers.
(** The decoder of one value, at the nesting below. *)
Variable scan : pystr -> option (pyval * pystr).

(** The items of an array after the first one is known to be there;
    each turn reads a value and the delimiter after it. *)
Fixpoint array_items (fuel : nat) (s : pystr) (acc : list pyval)
  : option (pyval * pystr) :=
  match fuel with
  | O => None
  | S fuel =>
    match scan s with
    | None => None
    | Some (v, s1) =>
      match skip_ws s1 with
      | c :: r =>
        if c =? 93 then Some (PyList (acc ++ [v]), r)
        else if c =? 44 then array_items fuel (skip_ws r) (acc ++ [v])
        else None
      | [] => None
      end
    end
  end.

(** An array, after its opening bracket. *)
Definition parse_array (s : pystr) : option (pyval * pystr) :=
  match skip_ws s with
  | c :: r =>
    if c =? 93 then Some (PyList [], r)
    else array_items (length s) (skip_ws s) []
  | [] => None
  end.

(** The members of an object: a quoted name, a colon, a value, then a
    comma or the closing brace. *)
Fixpoint object_items (fuel : nat) (s : pystr) (acc : list (pystr * pyval))
  : option (pyval * pystr) :=
  match fuel with
  | O => None
  | S fuel =>
    match s with
    | c :: r =>
      if c =? 34 then
        match scanstring r [] with
        | None => None
        | Some (key, s1) =>
          match skip_ws s1 with
          | c1 :: r1 =>
            if c1 =? 58 then
              match scan (skip_ws r1) with
              | None => None
              | Some (v, s2) =>
                let acc := dict_set key v acc in
                match skip_ws s2 with
                | c2 :: r2 =>
                  if c2 =? 125 then Some (PyDict acc, r2)
                  else if c2 =? 44 then object_items fuel (skip_ws r2) acc
                  else None
                | [] => None
                end
              end
            else None
          | [] => None
          end
        end
      else None
    | [] => None
    end
  end.

(** An object, after its opening brace. *)
Definition parse_object (s : pystr) : option (pyval * pystr) :=
  match skip_ws s with
  | c :: r =>
    if c =? 125 then Some (PyDict [], r)
    else object_items (length s) (skip_ws s) []
  | [] => None
  end.
End Containers.

(** One value at the head of the text; [depth] is the nesting still
    allowed.  [None] is a raised exception. *)
Fixpoint scan_once {interp : Interpreter} (depth : nat) (s : pystr)
  : option (pyval * pystr) :=
  match s with
  | [] => None
  | c :: r =>
    if c =? 34 then
      match scanstring r [] with
      | Some (t, r') => Some (PyStr t, r')
      | None => None
      end
    else if c =? 123 then
      match depth with
      | O => None
      | S d => parse_object (scan_once d) r
      end
    else if c =? 91 then
      match depth with
      | O => None
      | S d => parse_array (scan_once d) r
      end
    else
      match strip_prefix (py "null") s with
      | Some r' => Some (PyNone, r')
      | None =>
      match strip_prefix (py "true") s with
      | Some r' => Some (PyBool true, r')
      | None =>
      match strip_prefix (py "false") s with
      | Some r' => Some (PyBool false, r')
      | None =>
      match strip_prefix (py "NaN") s with
      | Some r' => Some (PyFloat (py "NaN"), r')
      | None =>
      match strip_prefix (py "Infinity") s with
      | Some r' => Some (PyFloat (py "Infinity"), r')
      | None =>
      match strip_prefix (py "-Infinity") s with
      | Some r' => Some (PyFloat (py "-Infinity"), r')
      | None => match_number s
      end end end end end end
  end.

(** [json.loads(s)] for a text: no byte order mark, one value, white
    space around it and nothing else. *)
Definition loads {interp : Interpreter} (s : pystr) : option pyval :=
  match s with
  | 65279 :: _ => None
  | _ =>
    match scan_once recursion_depth (skip_ws s) with
    | None => None
    | Some (v, r) =>
      match skip_ws r with
      | [] => Some v
      | _ :: _ => None
      end
    end
  end.

End Json.

(** [isinstance(data, dict)] *)
Definition is_dict (v : pyval) : bool :=
  match v with PyDict _ => true | _ => false end.

(** The chain of comparisons on [standard] in [measure_compliance]. *)
Definition compliance_prompt (report_text standard : pystr) : pystr :=
    if bool_decide (standard = py "CSRD") then
      py "You are an expert in sustainability reporting with extensive knowledge of the CSRD standard. "
      ++ py "Evaluate the compliance of the following report with the CSRD standard and provide your evaluation "
      ++ py "in a JSON format with the following keys: 'score' (a number between 1 and 100), 'strengths', "
      ++ py "'weaknesses', and 'recommendations'. Here is the report:" ++ nl ++ nl ++ report_text
    else
    if bool_decide (standard = py "GRI") then
      py "You are an expert in sustainability reporting with extensive knowledge of the GRI standards. "
      ++ py "Evaluate the compliance of the following report with the GRI standards and provide your evaluation "
      ++ py "in a JSON format with the following keys: 'score' (a number between 1 and 100), 'strengths', "
      ++ py "'weaknesses', and 'recommendations'. Here is the report:" ++ nl ++ nl ++ report_text
    else
    if bool_decide (standard = py "TCFD") then
      py "You are an expert in sustainability reporting with extensive knowledge of the TCFD recommendations. "
      ++ py "Evaluate the compliance of the following report with the TCFD recommendations and provide your evaluation "
      ++ py "in a JSON format with the following keys: 'score' (a number between 1 and 100), 'strengths', "
      ++ py "'weaknesses', and 'recommendations'. Here is the report:" ++ nl ++ nl ++ report_text
    else
    if bool_decide (standard = py "SASB") then
      py "You are an expert in sustainability reporting with extensive knowledge of SASB standards. "
      ++ py "Evaluate the compliance of the following report with SASB standards and provide your evaluation "
      ++ py "in a JSON format with the following keys: 'score' (a number between 1 and 100), 'strengths', "
      ++ py "'weaknesses', and 'recommendations'. Here is the report:" ++ nl ++ nl ++ report_text
    else
    if bool_decide (standard = py "Integrated Reporting (<IR>)") then
      py "You are an expert in sustainability reporting with extensive knowledge of Integrated Reporting (<IR>) guidelines. "
      ++ py "Evaluate the compliance of the following report with Integrated Reporting guidelines and provide your evaluation "
      ++ py "in a JSON format with the following keys: 'score' (a number between 1 and 100), 'strengths', "
      ++ py "'weaknesses', and 'recommendations'. Here is the report:" ++ nl ++ nl ++ report_text
    else
    if bool_decide (standard = py "CDP") then
      py "You are an expert in sustainability reporting with extensive knowledge of CDP requirements. "
      ++ py "Evaluate the compliance of the following report with CDP guidelines and provide your evaluation "
      ++ py "in a JSON format with the following keys: 'score' (a number between 1 and 100), 'strengths', "
      ++ py "'weaknesses', and 'recommendations'. Here is the report:" ++ nl ++ nl ++ report_text
    else
    if bool_decide (standard = py "AA1000") then
      py "You are an expert in sustainability reporting with extensive knowledge of AA1000 standards. "
      ++ py "Evaluate the compliance of the following report with AA1000 principles and provide your evaluation "
      ++ py "in a JSON format with the following keys: 'score' (a number between 1 and 100), 'strengths', "
      ++ py "'weaknesses', and 'recommendations'. Here is the report:" ++ nl ++ nl ++ report_text
    else
    if bool_decide (standard = py "ISO 26000") then
      py "You are an expert in sustainability reporting with extensive knowledge of ISO 26000 guidance. "
      ++ py "Evaluate the compliance of the following report with ISO 26000 principles on social responsibility and provide your evaluation "
      ++ py "in a JSON format with the following keys: 'score' (a number between 1 and 100), 'strengths', "
      ++ py "'weaknesses', and 'recommendations'. Here is the report:" ++ nl ++ nl ++ report_text
    else
    if bool_decide (standard = py "ISSB") then
      py "You are an expert in sustainability reporting with extensive knowledge of ISSB guidelines. "
      ++ py "Evaluate the compliance of the following report with ISSB standards and provide your evaluation "
      ++ py "in a JSON format with the following keys: 'score' (a number between 1 and 100), 'strengths', "
      ++ py "'weaknesses', and 'recommendations'. Here is the report:" ++ nl ++ nl ++ report_text
    else
    if bool_decide (standard = py "ESRS") then
      py "You are an expert in sustainability reporting with extensive knowledge of the European Sustainability Reporting Standards (ESRS). "
      ++ py "Evaluate the compliance of the following report with ESRS and provide your evaluation "
      ++ py "in a JSON format with the following keys: 'score' (a number between 1 and 100), 'strengths', "
      ++ py "'weaknesses', and 'recommendations'. Here is the report:" ++ nl ++ nl ++ report_text
    else
      py "You are an expert in sustainability reporting. "
      ++ py "Evaluate the compliance of the following report with the relevant sustainability reporting standards "
      ++ py "and provide your evaluation in a JSON format with the following keys: 'score' (a number between 1 and 100), "
      ++ py "'strengths', 'weaknesses', and 'recommendations'. Here is the report:" ++ nl ++ nl ++ report_text.

(** The dictionary built when the response is not a JSON object. *)
Definition fallback (result : pystr) : pyval :=
  PyDict [ (py "score", PyNone);
           (py "strengths", PyStr result);
           (py "weaknesses", PyStr []);
           (py "recommendations", PyStr []) ].

Section Evaluation.
Context {interp : Interpreter}.
Variable llm : pystr -> nat -> pystr -> result pystr.

(** What [measure_compliance] does with the content of the response. *)
Definition parse_response (content : pystr) : pyval :=
  let result := strip content in
  match Json.loads result with
  | Some data => if negb (is_dict data) then fallback result else data
  | None => fallback result
  end.

(** [measure_compliance]: the call of the service is not guarded, so its
    exception leaves the function. *)
Definition measure_compliance (report_text standard : pystr)
  : M (result pyval) :=
  let compliance_prompt := compliance_prompt report_text standard in
  (response <- call_llm llm (py "gpt-4") compliance_prompt ;;
   match response with
   | Raise e => ret (Raise e)
   | Ok content => ret (Ok (parse_response content))
   end)%py.
End Evaluation.

(** ** Rendering *)

(** [s.startswith(p)] *)
Definition startswith (p s : pystr) : bool :=
  match Json.strip_prefix p s with Some _ => true | None => false end.

(** [s.replace(old, new)] for a non-empty [old]: the occurrences are taken
    from the left and do not overlap; [skip] counts the characters of a
    taken occurrence still to pass. *)
Fixpoint replace_from (old new s : pystr) (skip : nat) : pystr :=
  match s with
  | [] => []
  | c :: r =>
    match skip with
    | S k => replace_from old new r k
    | O =>
      if startswith old s
      then new ++ replace_from old new r (length old - 1)
      else c :: replace_from old new r O
    end
  end.

(** [s.replace(old, new)] *)
Definition replace (old new s : pystr) : pystr :=
  match old with
  | [] => new ++ flat_map (fun c => c :: new) s
  | _ :: _ => replace_from old new s O
  end.

(** [s.split(sep)] for a separator of one character. *)
Fixpoint split (sep : N) (s : pystr) : list pystr :=
  match s with
  | [] => [[]]
  | c :: r =>
    if c =? sep then [] :: split sep r
    else match split sep r with
         | line :: lines => (c :: line) :: lines
         | [] => [[c]]
         end
  end.

(** [s.lstrip(chars)] for one character. *)
Fixpoint lstrip_char (ch : N) (s : pystr) : pystr :=
  match s with
  | c :: r => if c =? ch then lstrip_char ch r else s
  | [] => []
  end.

(** The calls made on the document object. *)
Inductive fpdf_call : Type :=
| SetMargins (left top right : Z)
| AddPage
| SetAutoPageBreak (auto : bool) (margin : Z)
| SetFont (family style : pystr) (size : Z)
| SetTextColor (r g b : Z)
| Cell (w h : Z) (txt : pystr) (ln : bool) (align : pystr)
| Ln (h : Z)
| SetLineWidth (tenths : Z)        (* the width, in tenths of the unit *)
| RuleAtY (x1 x2 : Z)              (* line(x1, get_y(), x2, get_y()) *)
| SetY (y : Z)
| MultiCell (w h : Z) (txt : pystr).

Definition decimal (z : Z) : pystr := py (NilZero.string_of_int (Z.to_int z)).

(** [PDF.__init__] after the constructor of the library. *)
Definition pdf_init : list fpdf_call := [SetMargins 20 20 20].



(** The body of the loop over the lines of the report. *)
Definition render_line (line : pystr) : list fpdf_call :=
  let line_stripped := strip line in
  if negb (truthy line_stripped) then [Ln 2]
  else if startswith (py "#") line_stripped then
    let heading_level :=
      (Z.of_nat (length line_stripped)
       - Z.of_nat (length (lstrip_char 35 line_stripped)))%Z in
    let heading_text := strip (lstrip_char 35 line_stripped) in
    [ (if (heading_level =? 1)%Z then SetFont (py "Times") (py "B") 16
       else if (heading_level =? 2)%Z then SetFont (py "Times") (py "B") 14
       else SetFont (py "Times") (py "B") 12);
      Cell 0 10 heading_text true [];
      Ln 2;
      SetFont (py "Times") [] 12 ]
  else
    let line_clean := replace (py "**") [] line_stripped in
    [ MultiCell 0 10 line_clean; Ln 2 ].

(** The final pass over one page. *)
Definition sanitize_page (page : pystr) : pystr :=
  replace [8217] (py "'") (replace [8212] (py "-") (replace [8211] (py "-") page)).


(** [text.encode("latin1", errors="replace")] *)
Definition encode_latin1_replace (text : pystr) : list Byte.byte :=
  List.map (fun c => match Byte.of_N c with
                     | Some b => b
                     | None => Byte.x3f
                     end) text.

Section Rendering.
(** The clock: [datetime.now().year] and
    [datetime.now().strftime('%B %d, %Y')]. *)
Variable current_year : Z.
Variable today : pystr.

(** The FPDF library.  [fpdf_layout hd ft calls] is the dictionary
    [pdf.pages] after a new document received [calls], the library running
    the header [hd] and the footer [ft] on each page; [fpdf_output calls
    pages] is what [output(dest="S")] returns for that document when its
    pages are [pages].  Either may raise. *)
Variable fpdf_layout :
  list fpdf_call -> (Z -> list fpdf_call) -> list fpdf_call -> result (gmap nat pystr).
Variable fpdf_output : list fpdf_call -> gmap nat pystr -> result pystr.

(** The calls of [create_pdf] up to the final pass. *)
Definition create_pdf_calls (report_text company_name standard : pystr)
  : list fpdf_call :=
  let title_text :=
    decimal current_year ++ py " - " ++ company_name ++ py " - "
    ++ standard ++ py " Report" in
  pdf_init
  ++ [ AddPage;
       SetAutoPageBreak true 20;
       SetFont (py "Times") (py "B") 16;
       SetTextColor 0 0 128;
       Cell 0 10 title_text true (py "C");
       Ln 5;
       SetFont (py "Times") [] 12;
       SetTextColor 0 0 0;
       Cell 0 10 (py "Date: " ++ today) true (py "C");
       Ln 10;
       SetLineWidth 5;
       RuleAtY 20 190;
       Ln 10;
       SetFont (py "Times") [] 12 ]
  ++ flat_map render_line (split 10 report_text).

End Rendering.

(** ** Definitions used to state the properties of ingestion *)

(** [lookup_slot] of the specification: the table consulted with a
    normalized label. *)
Definition lookup_slot (normalized_key : pystr) : option pystr :=
  predefined_keys !! normalized_key.

Section IngestionSpec.
Context {udb : UnicodeDB}.

(** The slot a label resolves to, if any. *)
Definition resolve (label : pystr) : option pystr :=
lookup_slot (normalize_key label).

(** The (label, value) pair of each row, by the precedence of the
  specification: the columns named Key and Value when the table has
  both, the first two columns otherwise, the value being empty when the
  row has fewer than two columns. *)
Definition spec_pairs (df : DataFrame) : list (pystr * pystr) :=
if has_column (py "Key") df && has_column (py "Value") df then
  List.map (fun row =>
    (py_str (nth (default O (label_index (py "Key") (columns df))) row CNaN),
     py_str (nth (default O (label_index (py "Value") (columns df))) row CNaN)))
    (rows df)
else
  List.map (fun row =>
    (py_str (nth 0 row CNaN),
     if (2 <=? length row)%nat then py_str (nth 1 row CNaN) else []))
    (rows df).

(** The value of the last pair whose label resolves to [slot]. *)
Definition last_value_for (slot : pystr) (pairs : list (pystr * pystr))
: option pystr :=
last (List.map snd
        (List.filter (fun p => bool_decide (resolve (fst p) = Some slot)) pairs)).
End IngestionSpec.

(** The frame read from the template when its value cells hold [values]. *)
Definition template_df (values : list cell) : DataFrame :=
  {| columns := [CStr (py "Key"); CStr (py "Value")];
     rows := zip_with (fun label v => [CStr label; v]) template_labels values |}.

(** The template with Acme and Tech in its first two rows and [blank] in
    the value cell of every other row. *)
Definition filled_template (blank : cell) : DataFrame :=
  template_df (CStr (py "Acme") :: CStr (py "Tech") :: replicate 22 blank).

Section StoreAll.
Context {udb : UnicodeDB}.

(** What both loops compute when no row access raises: the pairs stored
  in order. *)
Definition store_all (pairs : list (pystr * pystr)) (m : gmap pystr pystr)
: gmap pystr pystr :=
fold_left (fun m p => store (fst p) (snd p) m) pairs m.
End StoreAll.

(** A table with positional columns whose first row is (Industry, Retail),
    a row with an unknown label, and a later row for the same slot. *)
Definition positional_example : DataFrame :=
  {| columns := [CStr (py "Topic"); CStr (py "Answer")];
     rows := [ [CStr (py "Industry"); CStr (py "Retail")];
               [CStr (py "Favourite colour"); CStr (py "Blue")];
               [CStr (py "INDUSTRY"); CStr (py "Wholesale")] ] |}.

(** A frame with rows and no column: the first row access raises. *)
Definition no_column_example : DataFrame :=
  {| columns := []; rows := [[]; []] |}.

(** A frame is a possible outcome of reading a source when it is
    rectangular; a raised exception always is. *)
Definition source_ok (file : result DataFrame) : Prop :=
  match file with
  | Ok df => well_formed df
  | Raise _ => True
  end.

Section StoredOk.
Variable Q : pystr → Prop.

(** Every stored value satisfies [Q] and every key is a slot of the table. *)
Definition stored_ok (m : gmap pystr pystr) : Prop :=
∀ k v, m !! k = Some v → Q v ∧ ∃ norm, predefined_keys !! norm = Some k.

End StoredOk.

(** ** Definitions used to state the properties of generation *)

(** The slots with content, with their question texts, in the order of the
    questionnaire. *)
Definition answered (report_data : gmap pystr pystr) : list (pystr * pystr) :=
  List.filter (fun q => truthy (strip (dict_get report_data (fst q) []))) questions.

(** The values passed to [progress_bar.progress], in order. *)
Definition progress_values (t : trace) : list Z :=
  flat_map (fun e => match e with BarProgress v => [v] | _ => [] end) t.

(** The messages passed to [st.error], in order. *)
Definition error_messages (t : trace) : list pystr :=
  flat_map (fun e => match e with StError msg => [msg] | _ => [] end) t.

Section GenerationSpec.
Variable llm : pystr -> nat -> pystr -> result pystr.
Variable report_data : gmap pystr pystr.
Variable standard : pystr.

(** The prompt sent for a slot. *)
Definition prompt_of (q : pystr * pystr) : pystr :=
  section_prompt (snd q) (dict_get report_data (fst q) []) standard.

(** What the service does at the call numbered [n], made for slot [q]. *)
Definition outcome (n : nat) (q : pystr * pystr) : result pystr :=
  llm (py "gpt-4-turbo") n (prompt_of q).

(** The text one processed slot adds to the report: a heading marker, the
    generated content (nothing when the call failed), two line breaks. *)
Definition block (r : result pystr) : pystr :=
  py "# " ++ match r with Ok content => content | Raise _ => [] end ++ nl ++ nl.

(** The report over the answered slots [qs], the first call being
    numbered [n]. *)
Fixpoint blocks (n : nat) (qs : list (pystr * pystr)) : pystr :=
  match qs with
  | [] => []
  | q :: rest => block (outcome n q) ++ blocks (S n) rest
  end.

(** The events of the loop over the answered slots [qs]: for each slot the
    call, the error report when the call failed, and the progress update
    with the counter advanced by one. *)
Fixpoint loop_events (n : nat) (completed total_sections : Z)
    (qs : list (pystr * pystr)) : trace :=
  match qs with
  | [] => []
  | q :: rest =>
    LlmCall (py "gpt-4-turbo") (prompt_of q)
    :: match outcome n q with
       | Ok _ => []
       | Raise e => [StError (py "An error occurred during report generation: " ++ e)]
       end
    ++ BarProgress (progress_percent (completed + 1) total_sections)
    :: loop_events (S n) (completed + 1) total_sections rest
  end.

(** The assembled text as C1 words it: a heading block for every answered
    slot whose call succeeded, nothing for a slot whose call failed. *)
Fixpoint claimed_report (n : nat) (qs : list (pystr * pystr)) : pystr :=
  match qs with
  | [] => []
  | q :: rest =>
    match outcome n q with
    | Ok content => py "# " ++ content ++ nl ++ nl
    | Raise _ => []
    end ++ claimed_report (S n) rest
  end.

(** The progress values as C2 words them: the counter advances only when
    the call succeeded, and after each processed slot the value
    floor(100 * completed / total) is reported. *)
Fixpoint claimed_progress (n : nat) (completed total_sections : Z)
    (qs : list (pystr * pystr)) : list Z :=
  match qs with
  | [] => []
  | q :: rest =>
    let completed :=
      match outcome n q with
      | Ok _ => (completed + 1)%Z
      | Raise _ => completed
      end in
    (100 * completed / total_sections)%Z
    :: claimed_progress (S n) completed total_sections rest
  end.
End GenerationSpec.

(** A service whose first call fails and whose later calls return S. *)
Definition fails_first : pystr -> nat -> pystr -> result pystr :=
  fun _ n _ => match n with O => Raise (py "timeout") | S _ => Ok (py "S") end.

(** Answers for the first two slots only. *)
Definition two_answers : gmap pystr pystr :=
  <[py "company_name" := py "Acme"]> {[ py "industry" := py "Tech" ]}.

Section GenerationErrors.
Variable llm : pystr -> nat -> pystr -> result pystr.
Variable report_data : gmap pystr pystr.
Variable standard : pystr.

(** The error messages of the loop over the answered slots [qs]: one for
    each call that failed, in order. *)
Fixpoint loop_errors (n : nat) (qs : list (pystr * pystr)) : list pystr :=
  match qs with
  | [] => []
  | q :: rest =>
    match outcome llm report_data standard n q with
    | Ok _ => []
    | Raise e => [py "An error occurred during report generation: " ++ e]
    end ++ loop_errors (S n) rest
  end.
End GenerationErrors.

(** ** Definitions used to state the properties of evaluation and rendering *)

(** A service that answers every call with [content]. *)
Definition replies (content : pystr) : pystr -> nat -> pystr -> result pystr :=
  fun _ _ _ => Ok content.

(** The quotation mark, which no literal of this file can hold. *)
Definition quote : pystr := [34].

(** The structured response of the specification's example: an object with
    score 82 and three texts. *)
Definition structured_response : pystr :=
  py "{" ++ quote ++ py "score" ++ quote ++ py ": 82, "
  ++ quote ++ py "strengths" ++ quote ++ py ": " ++ quote ++ py "Good coverage" ++ quote ++ py ", "
  ++ quote ++ py "weaknesses" ++ quote ++ py ": " ++ quote ++ py "Thin metrics" ++ quote ++ py ", "
  ++ quote ++ py "recommendations" ++ quote ++ py ": " ++ quote ++ py "Add targets" ++ quote ++ py "}".

(** What the final pass does to one character: the en dash (U+2013) and
    the em dash (U+2014) become a hyphen, the right single quotation mark
    (U+2019) becomes an apostrophe, any other character stays. *)
Definition sanitize_char (c : N) : N :=
  if c =? 8217 then 39
  else if c =? 8212 then 45
  else if c =? 8211 then 45
  else c.







(** A decoder consumes input: what it leaves is shorter than what it got. *)
Definition shrinking (scan : pystr -> option (pyval * pystr)) : Prop :=
  ∀ s v r, scan s = Some (v, r) → (length r < length s)%nat.

(** ** Definitions used to state further properties of ingestion *)

(** Texts of ASCII characters only. *)
Definition ascii_text (s : pystr) : Prop := forallb is_ascii s = true.

(** A lowercase ASCII letter or an ASCII digit. *)
Definition lower_alnum (c : N) : Prop :=
  (48 ≤ c ∧ c ≤ 57) ∨ (97 ≤ c ∧ c ≤ 122).

Section RowLabels.
Context {udb : UnicodeDB}.

(** The label of a row, by the precedence of [parse_uploaded_excel]: the
    cell under Key when the frame has the columns Key and Value, the first
    cell otherwise. *)
Definition row_label (df : DataFrame) (row : list cell) : pystr :=
  if has_column (py "Key") df && has_column (py "Value") df
  then py_str (nth (default O (label_index (py "Key") (columns df))) row CNaN)
  else py_str (nth 0 row CNaN).

(** The frame without the rows whose label resolves to no slot. *)
Definition drop_unresolved (df : DataFrame) : DataFrame :=
  {| columns := columns df;
     rows := List.filter
               (fun row => bool_decide (is_Some (resolve (row_label df row))))
               (rows df) |}.
End RowLabels.

(** The frame with other rows under the same columns. *)
Definition with_rows (df : DataFrame) (rs : list (list cell)) : DataFrame :=
  {| columns := columns df; rows := rs |}.

(** The frame cut down to its first two columns. *)
Definition first_two_columns (df : DataFrame) : DataFrame :=
  {| columns := take 2 (columns df); rows := List.map (take 2) (rows df) |}.

(** A table whose third column is named Key: it has no column Value, so
    its rows are read by position. *)
Definition three_column_example : DataFrame :=
  {| columns := [CStr (py "Topic"); CStr (py "Answer"); CStr (py "Key")];
     rows := [ [CStr (py "Industry"); CStr (py "Retail"); CStr (py "KPI")];
               [CStr (py "kpi"); CInt 7; CNaN] ] |}.

(** ** Definitions used to state further properties of generation *)

(** A service that returns S at every call. *)
Definition always_succeeds : pystr -> nat -> pystr -> result pystr :=
  fun _ _ _ => Ok (py "S").

(** The two answers, with a blank answer and an entry for a key that is not
    in the questionnaire besides. *)
Definition two_answers_and_noise : gmap pystr pystr :=
  <[py "overview" := [32; 10]]> (<[py "notes" := py "draft"]> two_answers).

(** [shorten_text] of [main]: the text when it is short enough, else the
    slice [text[:max_chars]]; a negative bound counts from the end. *)
Definition shorten_text (text : pystr) (max_chars : Z) : pystr :=
  if (Z.of_nat (length text) <=? max_chars)%Z then text
  else if (0 <=? max_chars)%Z then take (Z.to_nat max_chars) text
  else take (Z.to_nat (Z.of_nat (length text) + max_chars)) text.

(** Two answer maps hold the same answer at a key, or both hold no answer
    there (nothing, or a text that is blank after trimming). *)
Definition same_answer (rd1 rd2 : gmap pystr pystr) (key : pystr) : Prop :=
  dict_get rd1 key [] = dict_get rd2 key []
  ∨ (truthy (strip (dict_get rd1 key [])) = false
     ∧ truthy (strip (dict_get rd2 key [])) = false).

(** ** Definitions used to state further properties of rendering *)

(** [sep.join(lines)] *)
Fixpoint join (sep : pystr) (lines : list pystr) : pystr :=
  match lines with
  | [] => []
  | [line] => line
  | line :: rest => line ++ sep ++ join sep rest
  end.

(** A font selection: family, style, size. *)
Definition font : Type := pystr * pystr * Z.

(** The body font of the report. *)
Definition body_font : font := (py "Times", [], 12%Z).

(** The font selected after a run of calls, starting from font [f]. *)
Definition font_after (f : font) (calls : list fpdf_call) : font :=
  fold_left (fun f c => match c with
                        | SetFont family style size => (family, style, size)
                        | _ => f
                        end) calls f.

(** The fonts under which the paragraphs (the [multi_cell] calls) of a run
    of calls are issued, starting from font [f]. *)
Fixpoint paragraph_fonts (f : font) (calls : list fpdf_call) : list font :=
  match calls with
  | [] => []
  | SetFont family style size :: rest => paragraph_fonts (family, style, size) rest
  | MultiCell _ _ _ :: rest => f :: paragraph_fonts f rest
  | _ :: rest => paragraph_fonts f rest
  end.

(** The characters the output encoding keeps once the final pass has run:
    those of Latin-1 and the three characters the pass rewrites. *)
Definition renderable (c : N) : Prop :=
  c < 256 ∨ c = 8211 ∨ c = 8212 ∨ c = 8217.





(** ** The session state of [main] *)

(** The entries [main] keeps in [st.session_state]. *)
Record session : Type := {
  step : Z;
  mode : option pystr;
  report_data : gmap pystr pystr;
  generated_report : pystr;
  current_standard : pystr;
  compliance_result : pyval
}.

(** The values [main] installs for the entries that are missing. *)
Definition initial_session : session :=
  {| step := 0; mode := None; report_data := ∅; generated_report := [];
     current_standard := []; compliance_result := PyDict [] |}.

Definition set_step (s : session) (v : Z) : session :=
  {| step := v; mode := mode s; report_data := report_data s;
     generated_report := generated_report s;
     current_standard := current_standard s;
     compliance_result := compliance_result s |}.

Definition set_mode (s : session) (v : option pystr) : session :=
  {| step := step s; mode := v; report_data := report_data s;
     generated_report := generated_report s;
     current_standard := current_standard s;
     compliance_result := compliance_result s |}.

Definition set_report_data (s : session) (v : gmap pystr pystr) : session :=
  {| step := step s; mode := mode s; report_data := v;
     generated_report := generated_report s;
     current_standard := current_standard s;
     compliance_result := compliance_result s |}.

(** [l[i]]: a negative index counts from the end. *)
Definition py_index {A : Type} (l : list A) (i : Z) : result A :=
  let n := Z.of_nat (length l) in
  let j := if (i <? 0)%Z then (i + n)%Z else i in
  if (0 <=? j)%Z && (j <? n)%Z then
    match l !! Z.to_nat j with
    | Some x => Ok x
    | None => Raise (py "list index out of range")
    end
  else Raise (py "list index out of range").

(** The questionnaire flow of [main]: the block guarded by the mode being
    questionnaire and the step being below the number of questions.  [back]
    is what the Back button returns, [user_input] the text area of the
    form, [submitted] its submit button.  The session state is updated in
    place; the second component is the exception raised, if any.  Calls
    that only display are left out. *)
Definition questionnaire_flow (s : session) (back : bool)
    (user_input : pystr) (submitted : bool) : session * option pystr :=
  if bool_decide (mode s = Some (py "questionnaire"))
     && (step s <? Z.of_nat (length questions))%Z
  then
    let s :=
      if back then
        if (0 <? step s)%Z then set_step s (step s - 1) else set_mode s None
      else s in
    match py_index questions (step s) with
    | Raise e => (s, Some e)
    | Ok (key, question_text) =>
      if submitted && truthy (strip user_input) then
        let s := set_report_data s (<[key := strip user_input]> (report_data s)) in
        (set_step s (step s + 1), None)
      else (s, None)
    end
  else (s, None).

(** The upload of [main]: what follows the file uploader, which returns
    nothing or a file (given by what [pd.read_excel] does with it). *)
Definition upload_block {udb : UnicodeDB} (s : session)
    (uploaded_file : option (result DataFrame)) : M session :=
  match uploaded_file with
  | None => ret s
  | Some file =>
    (parsed_data <- parse_uploaded_excel file ;;
     let s := set_report_data s (parsed_data ∪ report_data s) in
     ret (set_step s (Z.of_nat (length questions))))%py
  end.

(** The review loop of [main]: every question gets the value of its text
    area, [edited q d] for the question text [q] and the value [d] the area
    is created with. *)
Definition review_block (s : session) (edited : pystr -> pystr -> pystr)
  : session :=
  fold_left
    (fun s q =>
       let updated_value := edited (snd q) (dict_get (report_data s) (fst q) []) in
       set_report_data s (<[fst q := updated_value]> (report_data s)))
    questions s.

(** The Start Over button of [main], when pressed. *)
Definition start_over (s : session) : session :=
  {| step := 0; mode := None; report_data := ∅; generated_report := [];
     current_standard := []; compliance_result := PyDict [] |}.

(** The session after the form was submitted with each of [inputs] in
    turn, the Back button never pressed. *)
Definition submit_all (inputs : list pystr) (s : session) : session :=
  fold_left (fun s input => fst (questionnaire_flow s false input true)) inputs s.

(** A session in the questionnaire mode. *)
Definition questionnaire_start : session :=
  set_mode initial_session (Some (py "questionnaire")).

(** What [main] keeps true of its session: the step is between 0 and the
    number of questions, and every key of the answers is a key of the
    questionnaire. *)
Definition session_ok (s : session) : Prop :=
  (0 ≤ step s ≤ Z.of_nat (length questions))%Z
  ∧ ∀ k, k ∈ dom (report_data s) → k ∈ questions.*1.


Definition set_generated_report (s : session) (v : pystr) : session :=
  {| step := step s; mode := mode s; report_data := report_data s;
     generated_report := v;
     current_standard := current_standard s;
     compliance_result := compliance_result s |}.

Definition set_current_standard (s : session) (v : pystr) : session :=
  {| step := step s; mode := mode s; report_data := report_data s;
     generated_report := generated_report s;
     current_standard := v;
     compliance_result := compliance_result s |}.

(** The Generate Report button of [main], when pressed: the standard is
    GRI whatever the dropdown shows. *)
Definition generate_block (llm : pystr -> nat -> pystr -> result pystr)
    (s : session) : M session :=
  let selected_standard := py "GRI" in
  let s := set_current_standard s selected_standard in
  (report <- generate_full_report llm (report_data s) selected_standard ;;
   ret (set_generated_report s report))%py.

(** A text area of the review stage that the user leaves as it is. *)
Definition unedited (question_text value : pystr) : pystr := value.

(** The call made for question [q] when its answer is [input]. *)
Definition call_for (standard : pystr) (q : pystr * pystr) (input : pystr)
  : event :=
  LlmCall (py "gpt-4-turbo") (section_prompt (snd q) (strip input) standard).

(** * Properties *)

Example normalize_company_name :
  @normalize_key ascii_db (py "Company Name") = py "companyname".
Proof. reflexivity. Qed.

Example predefined_lookup_company :
  predefined_keys !! py "companyname" = Some (py "company_name").
Proof. vm_compute. reflexivity. Qed.

#[global] Opaque predefined_keys questions.

Section IngestionFacts.
Context {udb : UnicodeDB}.

Lemma store_lookup (key_candidate value : pystr) (m : gmap pystr pystr) (slot : pystr) :
  store key_candidate value m !! slot =
  if bool_decide (resolve key_candidate = Some slot) then Some value else m !! slot.
Proof.
  unfold store, resolve, lookup_slot.
  destruct (predefined_keys !! normalize_key key_candidate) as [k|] eqn:E.
  - case_bool_decide as H.
    + inversion H; subst. apply lookup_insert_eq.
    + apply lookup_insert_ne. congruence.
  - case_bool_decide; [discriminate | done].
Qed.

Lemma store_dom (key_candidate value : pystr) (m : gmap pystr pystr) (k : pystr) :
  k ∈ dom (store key_candidate value m) →
  k ∈ dom m ∨ ∃ norm, predefined_keys !! norm = Some k.
Proof.
  unfold store.
  destruct (predefined_keys !! normalize_key key_candidate) as [s|] eqn:E; [|auto].
  rewrite dom_insert_L, elem_of_union, elem_of_singleton.
  intros [->|?]; eauto.
Qed.

Lemma store_all_lookup (pairs : list (pystr * pystr)) :
  ∀ (m : gmap pystr pystr) (slot : pystr),
  store_all pairs m !! slot =
  match last_value_for slot pairs with
  | Some v => Some v
  | None => m !! slot
  end.
Proof.
  unfold store_all, last_value_for.
  induction pairs as [|[l v] pairs IH]; intros m slot; simpl; [done|].
  rewrite IH, store_lookup.
  case_bool_decide as H; simpl; [|done].
  destruct (List.filter _ pairs) as [|p ps]; simpl; [done|].
  rewrite last_cons. simpl. by destruct (last (List.map snd ps)).
Qed.
End IngestionFacts.

Section IngestionLoops.
Context {udb : UnicodeDB}.

Lemma label_index_lt (name : pystr) (cols : list cell) :
  existsb (is_label name) cols = true →
  ∃ i, label_index name cols = Some i ∧ (i < length cols)%nat.
Proof.
  induction cols as [|c cols IH]; simpl; [discriminate|].
  destruct (is_label name c); simpl.
  - intros _. exists O. split; [done | lia].
  - intros H. destruct (IH H) as (i & -> & Hi). exists (S i). split; [done | lia].
Qed.

Lemma row_get_nth (df : DataFrame) (row : list cell) (name : pystr) :
  has_column name df = true →
  length row = length (columns df) →
  row_get df row name =
  Ok (nth (default O (label_index name (columns df))) row CNaN).
Proof.
  intros Hc Hlen. unfold row_get.
  destruct (label_index_lt _ _ Hc) as (i & -> & Hi). simpl.
  destruct (row !! i) as [v|] eqn:E.
  - by rewrite (nth_lookup_Some _ _ CNaN _ E).
  - apply lookup_ge_None in E. lia.
Qed.

Lemma ingest_named_store_all (df : DataFrame) (rs : list (list cell)) :
  has_column (py "Key") df = true →
  has_column (py "Value") df = true →
  Forall (fun row => length row = length (columns df)) rs →
  ∀ m : gmap pystr pystr,
  ingest_named df rs m =
  (store_all
     (List.map (fun row =>
        (py_str (nth (default O (label_index (py "Key") (columns df))) row CNaN),
         py_str (nth (default O (label_index (py "Value") (columns df))) row CNaN)))
        rs) m, None).
Proof.
  intros Hk Hv Hwf. induction Hwf as [|row rs Hrow _ IH]; intros m; [done|].
  cbn [ingest_named List.map store_all fold_left].
  rewrite (row_get_nth df row (py "Key") Hk Hrow).
  rewrite (row_get_nth df row (py "Value") Hv Hrow).
  apply IH.
Qed.

Lemma ingest_positional_store_all (rs : list (list cell)) :
  Forall (fun row => row ≠ []) rs →
  ∀ m : gmap pystr pystr,
  ingest_positional rs m =
  (store_all
     (List.map (fun row =>
        (py_str (nth 0 row CNaN),
         if (2 <=? length row)%nat then py_str (nth 1 row CNaN) else []))
        rs) m, None).
Proof.
  intros Hne. induction Hne as [|row rs Hrow _ IH]; intros m; [done|].
  cbn [ingest_positional List.map store_all fold_left].
  destruct row as [|c0 [|c1 row]]; [done| |]; cbn; apply IH.
Qed.

Lemma try_body_spec (df : DataFrame) :
  well_formed df → columns df ≠ [] →
  try_body (Ok df) ∅ = (store_all (spec_pairs df) ∅, None).
Proof.
  intros Hwf Hcols. unfold try_body, spec_pairs.
  destruct (has_column (py "Key") df) eqn:Hk;
    [destruct (has_column (py "Value") df) eqn:Hv|]; cbn [andb].
  - by apply ingest_named_store_all.
  - apply ingest_positional_store_all.
    eapply Forall_impl; [exact Hwf|]. intros [|] Hlen; [|done].
    destruct (columns df); [done | discriminate].
  - apply ingest_positional_store_all.
    eapply Forall_impl; [exact Hwf|]. intros [|] Hlen; [|done].
    destruct (columns df); [done | discriminate].
Qed.

(** An exception inside the [try] statement leaves the dictionary empty
    on every rectangular frame. *)
Lemma try_body_raise_empty (file : result DataFrame) (e : pystr)
    (m : gmap pystr pystr) :
  match file with Ok df => well_formed df | Raise _ => True end →
  try_body file ∅ = (m, Some e) → m = ∅.
Proof.
  destruct file as [df|e']; cbn [try_body]; [|congruence].
  intros Hwf.
  destruct (columns df) as [|c cols] eqn:Hcols.
  - replace (has_column (py "Key") df) with false
      by (unfold has_column; by rewrite Hcols).
    cbn [andb]. unfold well_formed in Hwf. rewrite Hcols in Hwf.
    destruct Hwf as [|row rs Hrow _]; cbn; [congruence|].
    destruct row; [|discriminate]. cbn. congruence.
  - assert (Hne : columns df ≠ []) by (rewrite Hcols; discriminate).
    pose proof (try_body_spec df Hwf Hne) as Hs. cbn [try_body] in Hs.
    rewrite Hs. congruence.
Qed.

Lemma store_all_dom (pairs : list (pystr * pystr)) :
  ∀ (m : gmap pystr pystr) (k : pystr),
  k ∈ dom (store_all pairs m) →
  k ∈ dom m ∨ ∃ norm, predefined_keys !! norm = Some k.
Proof.
  unfold store_all. induction pairs as [|[l v] pairs IH]; intros m k; cbn; [auto|].
  intros H. destruct (IH _ _ H) as [H'|H']; [|auto].
  by apply store_dom in H'.
Qed.
End IngestionLoops.

Section IngestionInvariant.
Context {udb : UnicodeDB}.
Variable Q : pystr → Prop.

Lemma store_ok (key_candidate value : pystr) (m : gmap pystr pystr) :
Q value → stored_ok Q m → stored_ok Q (store key_candidate value m).
Proof.
intros HQ Hm k v. unfold store.
destruct (predefined_keys !! normalize_key key_candidate) as [s|] eqn:E; [|apply Hm].
destruct (decide (s = k)) as [->|Hne].
- rewrite lookup_insert_eq. intros [= <-]. eauto.
- rewrite lookup_insert_ne by done. apply Hm.
Qed.

Lemma row_get_elem (df : DataFrame) (row : list cell) (name : pystr) (c : cell) :
row_get df row name = Ok c → c ∈ row.
Proof.
unfold row_get. destruct (label_index name (columns df)) as [i|]; [|discriminate].
destruct (row !! i) as [v|] eqn:E; [|discriminate].
intros [= <-]. by eapply list_elem_of_lookup_2.
Qed.

Lemma ingest_named_ok (df : DataFrame) (rs : list (list cell)) :
(∀ row c, row ∈ rs → c ∈ row → Q (py_str c)) →
∀ m : gmap pystr pystr, stored_ok Q m → stored_ok Q (ingest_named df rs m).1.
Proof.
induction rs as [|row rs IH]; intros HQ m Hm; [done|].
cbn [ingest_named].
destruct (row_get df row (py "Key")) as [k|e] eqn:Ek; [|done].
destruct (row_get df row (py "Value")) as [v|e] eqn:Ev; [|done].
apply IH.
- intros r c Hr. apply HQ. by right.
- apply store_ok; [|done]. apply (HQ row); [by left|].
  by eapply row_get_elem.
Qed.

Lemma ingest_positional_ok (rs : list (list cell)) :
(∀ row c, row ∈ rs → c ∈ row → Q (py_str c)) →
(∀ row, row ∈ rs → (length row < 2)%nat → Q []) →
∀ m : gmap pystr pystr, stored_ok Q m → stored_ok Q (ingest_positional rs m).1.
Proof.
induction rs as [|row rs IH]; intros HQ HQ0 m Hm; [done|].
cbn [ingest_positional].
assert (IH' : ∀ m', stored_ok Q m' → stored_ok Q (ingest_positional rs m').1).
{ apply IH; intros r **; [eapply HQ | eapply (HQ0 r)]; eauto; by right. }
destruct row as [|c0 [|c1 row]]; cbn.
- done.
- apply IH', store_ok; [|done]. apply (HQ0 [c0]); [by left | simpl; lia].
- apply IH', store_ok; [|done]. apply (HQ [c0; c1] ++ row)%list || idtac.
  apply (HQ (c0 :: c1 :: row)); [by left|]. right. by left.
Qed.

Lemma parse_uploaded_excel_ok (file : result DataFrame) (t : trace) :
(∀ df row c, file = Ok df → row ∈ rows df → c ∈ row → Q (py_str c)) →
(∀ df row, file = Ok df → row ∈ rows df → (length row < 2)%nat → Q []) →
stored_ok Q (parse_uploaded_excel file t).1.
Proof.
intros HQ HQ0. unfold parse_uploaded_excel.
assert (H0 : stored_ok Q (∅ : gmap pystr pystr)) by (intros k v; by rewrite lookup_empty).
assert (Hb : stored_ok Q (try_body file ∅).1).
{ destruct file as [df|e]; cbn [try_body]; [|done].
  destruct (has_column (py "Key") df && has_column (py "Value") df).
  - apply ingest_named_ok; eauto.
  - apply ingest_positional_ok; eauto. }
destruct (try_body file ∅) as [m [e|]]; exact Hb.
Qed.
End IngestionInvariant.

Lemma predefined_values_are_slots :
  map_Forall (λ _ slot, slot ∈ questions.*1) predefined_keys.
Proof.
  apply map_Forall_to_list.
  assert (H : forallb (fun p => bool_decide (p.2 ∈ questions.*1))
                (map_to_list predefined_keys) = true) by (vm_compute; reflexivity).
  rewrite forallb_forall in H. apply Forall_forall. intros [n s] Hin.
  apply list_elem_of_In in Hin. apply H in Hin. by apply bool_decide_eq_true in Hin.
Qed.

Lemma parse_keys_in_table {udb : UnicodeDB} (file : result DataFrame) (t : trace)
    (k : pystr) :
  k ∈ dom (parse_uploaded_excel file t).1 →
  (∃ norm, predefined_keys !! norm = Some k) ∧ k ∈ questions.*1.
Proof.
  intros [v Hv]%elem_of_dom.
  destruct (parse_uploaded_excel_ok (λ _, True) file t
              ltac:(done) ltac:(done) k v Hv) as [_ [norm Hn]].
  split; [eauto|]. exact (predefined_values_are_slots norm k Hn).
Qed.

Lemma parse_store_all {udb : UnicodeDB} (df : DataFrame) (t : trace) :
  well_formed df → columns df ≠ [] →
  parse_uploaded_excel (Ok df) t = (store_all (spec_pairs df) ∅, t).
Proof.
  intros Hwf Hcols. unfold parse_uploaded_excel.
  by rewrite (try_body_spec df Hwf Hcols).
Qed.

(** ** The claims on ingestion *)

(** C9: every key of the map returned by [parse_uploaded_excel] is a value
    of the table [predefined_keys], and every value of that table is the key
    of an entry of [questions]; so a label that is not in the table adds no
    key, and no key lies outside the questionnaire, whatever the source. *)
Theorem answer_map_keys_are_slots {udb : UnicodeDB}
    (file : result DataFrame) (t : trace) :
  map_Forall (λ _ slot, slot ∈ questions.*1) predefined_keys
  ∧ ∀ k : pystr, k ∈ dom (parse_uploaded_excel file t).1 →
      (∃ norm, predefined_keys !! norm = Some k) ∧ k ∈ questions.*1.
Proof.
  split; [exact predefined_values_are_slots|].
  intros k. apply parse_keys_in_table.
Qed.

Lemma answer_map_keys_are_slots_witness :
  py "industry" ∈ questions.*1.
Proof.
  apply (proj2 (answer_map_keys_are_slots (udb := ascii_db)
                  (Ok positional_example) []) (py "industry")).
  apply elem_of_dom. vm_compute. eexists. reflexivity.
Defined.

(** C8: on a rectangular table with at least one column, the rows are read
    as (label, value) pairs by the stated precedence ([spec_pairs]: the
    columns Key and Value when both exist, else the first two columns, the
    value being empty for a row of fewer than two columns), no error is
    reported, and the value found under a slot is the value of the last row
    whose normalized label resolves to that slot; rows whose label resolves
    to no slot leave no mark. *)
Theorem parse_uploaded_excel_precedence {udb : UnicodeDB}
    (df : DataFrame) (t : trace) (slot : pystr) :
  well_formed df → columns df ≠ [] →
  parse_uploaded_excel (Ok df) t = (store_all (spec_pairs df) ∅, t)
  ∧ (parse_uploaded_excel (Ok df) t).1 !! slot
    = last_value_for slot (spec_pairs df).
Proof.
  intros Hwf Hcols.
  pose proof (parse_store_all df t Hwf Hcols) as E.
  split; [exact E|]. rewrite E. cbn [fst].
  rewrite store_all_lookup, lookup_empty. by destruct (last_value_for _ _).
Qed.

Lemma parse_uploaded_excel_precedence_witness :
  (run (parse_uploaded_excel (udb := ascii_db) (Ok positional_example))).1
    !! py "industry" = Some (py "Wholesale").
Proof.
  refine (eq_trans (proj2 (parse_uploaded_excel_precedence (udb := ascii_db)
                             positional_example [] (py "industry") _ _)) _).
  - repeat constructor.
  - discriminate.
  - vm_compute. reflexivity.
Defined.

(** C6: whenever the body of the [try] statement raises on a source (the
    reader raises, or a row access does on the frame it returned), the
    function returns normally: it reports one error through [st.error] and
    returns the empty map. *)
Theorem unreadable_source_yields_empty_map {udb : UnicodeDB}
    (file : result DataFrame) (t : trace) (e : pystr) (m : gmap pystr pystr) :
  source_ok file →
  try_body file ∅ = (m, Some e) →
  parse_uploaded_excel file t
  = (∅, t ++ [StError (py "Error processing Excel file: " ++ e)]).
Proof.
  intros Hok Hbody. unfold parse_uploaded_excel. rewrite Hbody.
  by rewrite (try_body_raise_empty file e m Hok Hbody).
Qed.

Lemma unreadable_source_yields_empty_map_witness :
  run (parse_uploaded_excel (udb := ascii_db) (Raise (py "File is not a zip file")))
  = (∅, [StError (py "Error processing Excel file: File is not a zip file")])
  ∧ run (parse_uploaded_excel (udb := ascii_db) (Ok no_column_example))
  = (∅, [StError (py "Error processing Excel file: single positional indexer is out-of-bounds")]).
Proof.
  split.
  - apply (unreadable_source_yields_empty_map (udb := ascii_db)
             (Raise (py "File is not a zip file")) [] _ ∅); [exact I | reflexivity].
  - apply (unreadable_source_yields_empty_map (udb := ascii_db)
             (Ok no_column_example) [] _ ∅); [repeat constructor | reflexivity].
Defined.

(** C4, as stated, fails: the value stored for a blank cell of the template
    is the text nan, which has three characters, not four. *)
Lemma nan_rendering_counterexample :
  (run (parse_uploaded_excel (udb := ascii_db) (Ok (filled_template CNaN)))).1
    !! py "overview" = Some (py_str CNaN)
  ∧ py_str CNaN = py "nan"
  ∧ length (py_str CNaN) ≠ 4%nat.
Proof. split; [vm_compute; reflexivity | split; [reflexivity | discriminate]]. Qed.

(** C4 (amended): every value stored by [parse_uploaded_excel] is the
    [str] rendering of a cell of a row of the frame, or the empty text when
    the row has fewer than two columns; a value that renders a NaN cell is
    the three-character text nan, is not empty after trimming, and its slot
    is among the answered slots of the returned map. *)
Theorem stored_values_are_str_renderings {udb : UnicodeDB}
    (df : DataFrame) (t : trace) (slot v : pystr) :
  (parse_uploaded_excel (Ok df) t).1 !! slot = Some v →
  ((∃ row c, row ∈ rows df ∧ c ∈ row ∧ v = py_str c)
   ∨ (v = [] ∧ ∃ row, row ∈ rows df ∧ (length row < 2)%nat))
  ∧ (v = py_str CNaN →
     v = py "nan" ∧ length v = 3%nat ∧ truthy (strip v) = true
     ∧ slot ∈ answered_keys (parse_uploaded_excel (Ok df) t).1).
Proof.
  intros Hv.
  pose proof (parse_uploaded_excel_ok
    (λ v, (∃ row c, row ∈ rows df ∧ c ∈ row ∧ v = py_str c)
          ∨ (v = [] ∧ ∃ row, row ∈ rows df ∧ (length row < 2)%nat))
    (Ok df) t) as H.
  destruct (H ltac:(intros ? row c [= <-] ??; left; eauto)
              ltac:(intros ? row [= <-] ??; right; eauto) slot v Hv)
    as [HQ [norm Hn]].
  split; [exact HQ|]. intros ->.
  split; [reflexivity|]. split; [reflexivity|]. split; [reflexivity|].
  pose proof (predefined_values_are_slots norm slot Hn) as Hslot. cbn beta in Hslot.
  unfold answered_keys.
  apply list_elem_of_fmap in Hslot as [q [-> Hq]].
  apply list_elem_of_In, in_map, filter_In. split; [by apply list_elem_of_In|].
  unfold dict_get. rewrite Hv. reflexivity.
Qed.

Lemma stored_values_are_str_renderings_witness :
  py "overview"
    ∈ answered_keys
        (run (parse_uploaded_excel (udb := ascii_db) (Ok (filled_template CNaN)))).1.
Proof.
  apply (stored_values_are_str_renderings (udb := ascii_db)
           (filled_template CNaN) [] (py "overview") (py_str CNaN)).
  - vm_compute. reflexivity.
  - reflexivity.
Defined.

(** C3, as stated, fails: the template filled with Acme and Tech only, its
    other value cells blank, does not give the map with these two entries
    alone; a third slot is present. *)
Lemma template_round_trip_counterexample :
  (run (parse_uploaded_excel (udb := ascii_db) (Ok (filled_template CNaN)))).1
  ≠ <[py "company_name" := py "Acme"]> {[ py "industry" := py "Tech" ]}.
Proof.
  intros H. apply (f_equal (λ m : gmap pystr pystr, m !! py "overview")) in H.
  vm_compute in H. discriminate H.
Qed.

(** Two maps agree when they agree on a list of keys and hold no other key. *)
Lemma gmap_eq_by_keys (m1 m2 : gmap pystr pystr) (ks : list pystr) :
  List.map (λ k, m1 !! k) ks = List.map (λ k, m2 !! k) ks →
  (∀ k, k ∉ ks → m1 !! k = None) →
  (∀ k, k ∉ ks → m2 !! k = None) →
  m1 = m2.
Proof.
  intros Heq H1 H2. apply map_eq. intros k.
  destruct (decide (k ∈ ks)) as [Hin|Hout]; [|by rewrite H1, H2].
  clear H1 H2. induction ks as [|k' ks IH]; [by apply elem_of_nil in Hin|].
  cbn [List.map] in Heq. injection Heq as Hk Hks.
  apply elem_of_cons in Hin as [->|Hin]; [done | by apply IH].
Qed.

(** C3 (amended): the 24 labels of the template resolve, through
    [normalize_key] and [predefined_keys], to the 24 keys of [questions] in
    order; ingesting the template filled with Acme and Tech, every other
    value cell holding the same blank value, reports no error and yields the
    map with all 24 keys: company_name is Acme, industry is Tech, and each
    other slot holds the [str] rendering of the blank cell. *)
Theorem template_round_trip {udb : UnicodeDB} (blank : cell) (t : trace) :
  List.map resolve template_labels = List.map Some (questions.*1)
  ∧ parse_uploaded_excel (Ok (filled_template blank)) t
    = (list_to_map
         (zip (questions.*1)
              (py "Acme" :: py "Tech" :: replicate 22 (py_str blank))), t).
Proof.
  split; [vm_compute; reflexivity|].
  assert (Hwf : well_formed (filled_template blank)) by (repeat constructor).
  assert (Hcols : columns (filled_template blank) ≠ []) by discriminate.
  pose proof (parse_store_all (filled_template blank) t Hwf Hcols) as E.
  rewrite E. apply (f_equal (λ m : gmap pystr pystr, (m, t))).
  apply (gmap_eq_by_keys _ _ (questions.*1)).
  - assert (Ep : spec_pairs (filled_template blank)
                 = zip template_labels
                       (py "Acme" :: py "Tech" :: replicate 22 (py_str blank)))
      by reflexivity.
    rewrite Ep. generalize (py_str blank). intros v.
    vm_compute. reflexivity.
  - intros k Hk. apply not_elem_of_dom. intros Hd. apply Hk.
    pose proof (parse_keys_in_table (Ok (filled_template blank)) t k) as Hs.
    rewrite E in Hs. by apply Hs.
  - intros k Hk. apply not_elem_of_list_to_map_1. intros Hz. apply Hk.
    apply list_elem_of_fmap in Hz as [[k' v'] [-> Hz]].
    by apply elem_of_zip_l in Hz.
Qed.

(** ** Facts on the generation loop *)

Lemma llm_calls_app (t u : trace) :
  llm_calls (t ++ u) = (llm_calls t + llm_calls u)%nat.
Proof. unfold llm_calls. by rewrite List.filter_app, length_app. Qed.

Lemma progress_percent_floor (c t : Z) :
  (1 ≤ c ≤ t)%Z → (t ≤ 24)%Z → progress_percent c t = (100 * c / t)%Z.
Proof.
  intros Hc Ht.
  assert (H : forallb (fun t => forallb (fun c =>
                (progress_percent (Z.of_nat c) (Z.of_nat t)
                 =? 100 * Z.of_nat c / Z.of_nat t)%Z) (seq 1 t)) (seq 1 24) = true)
    by (vm_compute; reflexivity).
  rewrite forallb_forall in H.
  specialize (H (Z.to_nat t)). rewrite forallb_forall in H.
  specialize (H ltac:(apply in_seq; lia) (Z.to_nat c) ltac:(apply in_seq; lia)).
  rewrite !Z2Nat.id in H by lia. by apply Z.eqb_eq.
Qed.

Section GenerationFacts.
Variable llm : pystr -> nat -> pystr -> result pystr.
Variable report_data : gmap pystr pystr.
Variable standard : pystr.

Local Abbreviation is_answered :=
  (fun q : pystr * pystr => truthy (strip (dict_get report_data (fst q) []))).

(** The loop of the source does what [blocks] and [loop_events] say, on the
    answered slots of the list it walks. *)
Lemma report_loop_spec (total_sections : Z) (qs : list (pystr * pystr)) :
  ∀ (full_report : pystr) (completed : Z) (t : trace),
  report_loop llm qs report_data standard total_sections full_report completed t
  = (full_report
       ++ blocks llm report_data standard (llm_calls t) (List.filter is_answered qs),
     t ++ loop_events llm report_data standard (llm_calls t) completed
            total_sections (List.filter is_answered qs)).
Proof.
  induction qs as [|[key question_text] qs IH]; intros full_report completed t.
  - cbn. by rewrite !app_nil_r.
  - cbn [report_loop List.filter fst].
    destruct (truthy (strip (dict_get report_data key []))) eqn:Ha; [|apply IH].
    cbn [blocks loop_events].
    unfold generate_section, bind, call_llm, emit, ret, outcome, prompt_of, block.
    cbn [fst snd].
    destruct (llm (py "gpt-4-turbo") (llm_calls t)
                (section_prompt question_text (dict_get report_data key []) standard))
      as [content|e] eqn:El; rewrite IH, !llm_calls_app; cbn [llm_calls List.filter is_llm_call length];
      rewrite ?Nat.add_0_r, Nat.add_1_r; f_equal;
      rewrite <- ?app_assoc; reflexivity.
Qed.

Lemma answered_bound : (length (answered report_data) ≤ 24)%nat.
Proof.
  unfold answered. etrans; [apply List.filter_length_le|]. by vm_compute.
Qed.

Lemma progress_values_loop (n : nat) (total_sections : Z) (qs : list (pystr * pystr)) :
  ∀ completed : Z,
  progress_values (loop_events llm report_data standard n completed total_sections qs)
  = List.map (fun i => progress_percent (completed + Z.of_nat i) total_sections)
             (seq 1 (length qs)).
Proof.
  revert n. induction qs as [|q qs IH]; intros n completed; [done|].
  cbn [loop_events length seq List.map]. unfold progress_values in *.
  cbn [flat_map app]. rewrite flat_map_app.
  replace (flat_map _ (match outcome llm report_data standard n q with
                   | Ok _ => [] | Raise e => _ end)) with (@nil Z)
    by (by destruct (outcome _ _ _ _ _)).
  cbn [app flat_map]. f_equal.
  rewrite IH, <- (seq_shift (length qs) 1), List.map_map.
  apply List.map_ext. intros i. f_equal. lia.
Qed.

Lemma llm_events_loop (n : nat) (total_sections : Z) (qs : list (pystr * pystr)) :
  ∀ completed : Z,
  List.filter is_llm_call
    (loop_events llm report_data standard n completed total_sections qs)
  = List.map (fun q => LlmCall (py "gpt-4-turbo") (prompt_of report_data standard q)) qs.
Proof.
  revert n. induction qs as [|q qs IH]; intros n completed; [done|].
  cbn [loop_events List.map List.filter is_llm_call]. f_equal.
  rewrite List.filter_app.
  replace (List.filter is_llm_call (match outcome llm report_data standard n q with
                   | Ok _ => [] | Raise e => _ end)) with (@nil event)
    by (by destruct (outcome _ _ _ _ _)).
  cbn [app List.filter is_llm_call]. apply IH.
Qed.

Lemma generate_full_report_spec :
  answered report_data ≠ [] →
  run (generate_full_report llm report_data standard)
  = (blocks llm report_data standard 0 (answered report_data),
     StProgress 0
     :: loop_events llm report_data standard 0 0
          (Z.of_nat (length (answered report_data))) (answered report_data)).
Proof.
  intros Hne. unfold run, generate_full_report, answered_keys.
  rewrite length_map. fold (answered report_data).
  destruct (Z.eqb_spec (Z.of_nat (length (answered report_data))) 0) as [E|_].
  - destruct (answered report_data); [done | discriminate].
  - unfold bind, emit. cbn [app]. rewrite report_loop_spec. reflexivity.
Qed.
End GenerationFacts.

Lemma error_messages_loop (llm : pystr -> nat -> pystr -> result pystr)
    (report_data : gmap pystr pystr) (standard : pystr)
    (total_sections : Z) (qs : list (pystr * pystr)) :
  ∀ (n : nat) (completed : Z),
  error_messages (loop_events llm report_data standard n completed total_sections qs)
  = loop_errors llm report_data standard n qs.
Proof.
  induction qs as [|q qs IH]; intros n completed; [done|].
  cbn [loop_events loop_errors]. unfold error_messages in *.
  cbn [flat_map app]. rewrite flat_map_app. cbn [flat_map app]. rewrite IH.
  by destruct (outcome _ _ _ _ _).
Qed.

Lemma error_messages_progress (v : Z) (t : trace) :
  error_messages (StProgress v :: t) = error_messages t.
Proof. reflexivity. Qed.

Lemma progress_values_progress (v : Z) (t : trace) :
  progress_values (StProgress v :: t) = progress_values t.
Proof. reflexivity. Qed.

Lemma llm_filter_progress (v : Z) (t : trace) :
  List.filter is_llm_call (StProgress v :: t) = List.filter is_llm_call t.
Proof. reflexivity. Qed.

Lemma filter_none {A : Type} (f : A → bool) (l : list A) :
  (∀ x, x ∈ l → f x = false) → List.filter f l = [].
Proof.
  induction l as [|x l IH]; intros H; [done|]. cbn [List.filter].
  rewrite (H x) by (by left). apply IH. intros y Hy. apply H. by right.
Qed.

(** ** The claims on generation *)

(** C1, as stated, fails: with answers for two slots and a service whose
    first call fails, the assembled text is not the one holding a heading
    block for the second slot only; the failed slot left a block too. *)
Lemma failed_section_counterexample :
  (run (generate_full_report fails_first two_answers (py "GRI"))).1
  = py "# " ++ nl ++ nl ++ py "# S" ++ nl ++ nl
  ∧ (run (generate_full_report fails_first two_answers (py "GRI"))).1
    ≠ claimed_report fails_first two_answers (py "GRI") 0 (answered two_answers).
Proof. split; [vm_compute; reflexivity | vm_compute; discriminate]. Qed.

(** C1 (amended): when at least one slot is answered, the run completes
    and returns, for the answered slots in questionnaire order, one heading
    block each: the marker, the generated content, two line breaks.  A slot
    whose call failed contributes the block with empty content (the marker
    and the line breaks); its failure is reported through [st.error] and
    the loop goes on: the service is called once for every answered slot. *)
Theorem failed_section_leaves_empty_heading
    (llm : pystr -> nat -> pystr -> result pystr)
    (report_data : gmap pystr pystr) (standard : pystr) :
  answered report_data ≠ [] →
  (run (generate_full_report llm report_data standard)).1
    = blocks llm report_data standard 0 (answered report_data)
  ∧ (∀ e, block (Raise e) = py "# " ++ nl ++ nl)
  ∧ List.filter is_llm_call (run (generate_full_report llm report_data standard)).2
    = List.map (fun q => LlmCall (py "gpt-4-turbo") (prompt_of report_data standard q))
               (answered report_data)
  ∧ error_messages (run (generate_full_report llm report_data standard)).2
    = loop_errors llm report_data standard 0 (answered report_data).
Proof.
  intros Hne.
  pose proof (generate_full_report_spec llm report_data standard Hne) as E.
  destruct (run (generate_full_report llm report_data standard)) as [out tr].
  cbn [fst snd]. injection E as -> ->.
  split; [reflexivity|]. split; [reflexivity|]. split.
  - rewrite llm_filter_progress. apply llm_events_loop.
  - rewrite error_messages_progress. apply error_messages_loop.
Qed.

Lemma failed_section_leaves_empty_heading_witness :
  (run (generate_full_report fails_first two_answers (py "GRI"))).1
  = (py "# " ++ nl ++ nl) ++ (py "# S" ++ nl ++ nl).
Proof.
  refine (eq_trans (proj1 (failed_section_leaves_empty_heading
                             fails_first two_answers (py "GRI") _)) _).
  - vm_compute. discriminate.
  - vm_compute. reflexivity.
Defined.

(** C2, as stated, fails: with answers for two slots and a service whose
    first call fails, the values reported are 50 and 100, not the values 0
    and 50 of a counter that advances on success only. *)
Lemma progress_counterexample :
  progress_values (run (generate_full_report fails_first two_answers (py "GRI"))).2
  = [50; 100]%Z
  ∧ progress_values (run (generate_full_report fails_first two_answers (py "GRI"))).2
    ≠ claimed_progress fails_first two_answers (py "GRI") 0 0 2 (answered two_answers).
Proof. split; [vm_compute; reflexivity | vm_compute; discriminate]. Qed.

(** C2 (amended): in a run with at least one answered slot, the counter
    advances after every call of the service, successful or not; the trace
    is the creation of the bar at 0 followed, for each answered slot, by the
    call, its error report if it failed, and the progress update.  The
    values reported are floor(100 * i / total) for i = 1 .. total, where
    total is the number of slots whose trimmed answer is non-empty; there is
    one per call; they never decrease and the last one is 100. *)
Theorem progress_counts_processed_sections
    (llm : pystr -> nat -> pystr -> result pystr)
    (report_data : gmap pystr pystr) (standard : pystr) :
  answered report_data ≠ [] →
  let total := length (answered report_data) in
  let tr := (run (generate_full_report llm report_data standard)).2 in
  tr = StProgress 0
       :: loop_events llm report_data standard 0 0 (Z.of_nat total)
            (answered report_data)
  ∧ progress_values tr
    = List.map (fun i => (100 * Z.of_nat i / Z.of_nat total)%Z) (seq 1 total)
  ∧ length (progress_values tr) = llm_calls tr
  ∧ (∀ i j v w, (i ≤ j)%nat → progress_values tr !! i = Some v →
       progress_values tr !! j = Some w → (v ≤ w)%Z)
  ∧ last (progress_values tr) = Some 100%Z.
Proof.
  intros Hne total tr.
  assert (Etr : tr = StProgress 0
       :: loop_events llm report_data standard 0 0 (Z.of_nat total)
            (answered report_data)).
  { subst tr total.
    pose proof (generate_full_report_spec llm report_data standard Hne) as E.
    destruct (run (generate_full_report llm report_data standard)) as [out tr'].
    cbn [snd]. by injection E as -> ->. }
  clearbody tr.
  assert (Hpos : (0 < total)%nat).
  { subst total. destruct (answered report_data); [done | simpl; lia]. }
  assert (Hle : (total ≤ 24)%nat) by apply answered_bound.
  assert (Epv : progress_values tr
    = List.map (fun i => (100 * Z.of_nat i / Z.of_nat total)%Z) (seq 1 total)).
  { rewrite Etr, progress_values_progress, progress_values_loop. fold total.
    apply map_ext_in. intros i [Hi1 Hi2]%in_seq.
    rewrite Z.add_0_l. apply progress_percent_floor; lia. }
  split; [exact Etr|]. split; [exact Epv|]. split; [|split].
  - rewrite Epv, length_map, length_seq. rewrite Etr. unfold llm_calls.
    rewrite llm_filter_progress, llm_events_loop. by rewrite length_map.
  - rewrite Epv. clear Epv Etr. clearbody total. intros i j v w Hij Hi Hj.
    change (List.map ?f ?l) with (f <$> l) in Hi, Hj.
    rewrite list_lookup_fmap in Hi, Hj.
    destruct (seq 1 total !! i) as [a|] eqn:Ea; [|discriminate].
    destruct (seq 1 total !! j) as [b|] eqn:Eb; [|discriminate].
    apply lookup_seq in Ea as [-> _]. apply lookup_seq in Eb as [-> _].
    cbn [fmap option_fmap option_map] in Hi, Hj. injection Hi as <-. injection Hj as <-.
    apply Z.div_le_mono; lia.
  - rewrite Epv. clear Epv Etr. clearbody total. destruct total as [|k]; [lia|].
    rewrite seq_S, List.map_app. cbn [List.map]. rewrite last_snoc.
    f_equal. cbn [Nat.add]. apply Z.div_mul; lia.
Qed.

Lemma progress_counts_processed_sections_witness :
  progress_values (run (generate_full_report fails_first two_answers (py "GRI"))).2
  = [50; 100]%Z.
Proof.
  refine (eq_trans (proj1 (proj2 (progress_counts_processed_sections
                                    fails_first two_answers (py "GRI") _))) _).
  - vm_compute. discriminate.
  - vm_compute. reflexivity.
Defined.

(** C7: when no slot of the questionnaire has an answer that is non-empty
    after trimming, [generate_full_report] reports No responses provided
    through [st.error] and returns the empty text; nothing else happens: no
    call of the service, no progress bar, no progress update. *)
Theorem no_answers_no_report
    (llm : pystr -> nat -> pystr -> result pystr)
    (report_data : gmap pystr pystr) (standard : pystr) (t : trace) :
  (∀ key, key ∈ questions.*1 → strip (dict_get report_data key []) = []) →
  generate_full_report llm report_data standard t
  = ([], t ++ [StError (py "No responses provided.")])
  ∧ llm_calls (generate_full_report llm report_data standard t).2 = llm_calls t
  ∧ progress_values (generate_full_report llm report_data standard t).2
    = progress_values t.
Proof.
  intros Hnone.
  assert (Ea : answered_keys report_data = []).
  { unfold answered_keys. rewrite filter_none; [done|].
    intros q Hq. rewrite Hnone; [done|]. apply list_elem_of_fmap. eauto. }
  assert (E : generate_full_report llm report_data standard t
              = ([], t ++ [StError (py "No responses provided.")])).
  { unfold generate_full_report. by rewrite Ea. }
  rewrite E. cbn [fst snd]. split; [done|]. split.
  - rewrite llm_calls_app. cbn. lia.
  - unfold progress_values. rewrite flat_map_app. cbn. by rewrite app_nil_r.
Qed.

Lemma no_answers_no_report_witness :
  run (generate_full_report fails_first (<[py "industry" := [32; 9]]> ∅) (py "GRI"))
  = ([], [StError (py "No responses provided.")]).
Proof.
  apply (no_answers_no_report fails_first (<[py "industry" := [32; 9]]> ∅) (py "GRI") []).
  intros key Hkey. unfold dict_get.
  destruct (decide (key = py "industry")) as [->|Hne].
  - by rewrite lookup_insert_eq.
  - by rewrite lookup_insert_ne, lookup_empty.
Defined.

(** ** Facts on the evaluation response *)

Lemma loads_not_json {interp : Interpreter} :
  Json.loads (py "not json at all") = None.
Proof.
  unfold Json.loads. destruct interp as [d m]. cbn [recursion_depth].
  destruct d; reflexivity.
Qed.

Lemma measure_compliance_ok {interp : Interpreter}
    (llm : pystr -> nat -> pystr -> result pystr)
    (report_text standard : pystr) (t : trace) (content : pystr) :
  llm (py "gpt-4") (llm_calls t) (compliance_prompt report_text standard) = Ok content →
  measure_compliance llm report_text standard t
  = (Ok (parse_response content),
     t ++ [LlmCall (py "gpt-4") (compliance_prompt report_text standard)]).
Proof.
  intros Hl. unfold measure_compliance, bind, call_llm, ret. by rewrite Hl.
Qed.

(** The decoder on the structured response of the specification. *)
Example loads_structured_response :
  Json.loads (interp := default_interpreter) structured_response
  = Some (PyDict [ (py "score", PyInt 82);
                   (py "strengths", PyStr (py "Good coverage"));
                   (py "weaknesses", PyStr (py "Thin metrics"));
                   (py "recommendations", PyStr (py "Add targets")) ]).
Proof. vm_compute. reflexivity. Qed.

(** ** The claim on evaluation *)

(** C5, as stated, fails: for a response that is not JSON and ends with a
    line break, the text carried in strengths is the response without that
    line break, not the entire raw response. *)
Lemma raw_response_counterexample :
  (run (measure_compliance (interp := default_interpreter)
          (replies (py "not json at all" ++ nl)) (py "report") (py "GRI"))).1
  = Ok (fallback (py "not json at all"))
  ∧ (run (measure_compliance (interp := default_interpreter)
            (replies (py "not json at all" ++ nl)) (py "report") (py "GRI"))).1
    ≠ Ok (fallback (py "not json at all" ++ nl)).
Proof. split; [vm_compute; reflexivity | vm_compute; discriminate]. Qed.

(** C5 (amended): when the service returns a response text and decoding
    the trimmed text as JSON fails or gives a value that is not an object,
    [measure_compliance] returns normally the result with score absent,
    strengths equal to the response text with its leading and trailing
    white space removed, and weaknesses and recommendations empty; in
    particular the response not json at all yields that result with
    strengths not json at all. *)
Theorem non_object_response_falls_back {interp : Interpreter}
    (llm : pystr -> nat -> pystr -> result pystr)
    (report_text standard : pystr) (t : trace) (content : pystr) :
  llm (py "gpt-4") (llm_calls t) (compliance_prompt report_text standard) = Ok content →
  ((Json.loads (strip content) = None
    ∨ ∃ v, Json.loads (strip content) = Some v ∧ is_dict v = false) →
   (measure_compliance llm report_text standard t).1
   = Ok (PyDict [ (py "score", PyNone);
                  (py "strengths", PyStr (strip content));
                  (py "weaknesses", PyStr []);
                  (py "recommendations", PyStr []) ]))
  ∧ (content = py "not json at all" →
     (measure_compliance llm report_text standard t).1
     = Ok (PyDict [ (py "score", PyNone);
                    (py "strengths", PyStr (py "not json at all"));
                    (py "weaknesses", PyStr []);
                    (py "recommendations", PyStr []) ])).
Proof.
  intros Hl. rewrite (measure_compliance_ok llm report_text standard t content Hl).
  cbn [fst]. unfold parse_response. split.
  - intros [Hnone | [v [Hv Hd]]].
    + by rewrite Hnone.
    + rewrite Hv, Hd. reflexivity.
  - intros ->.
    change (strip (py "not json at all")) with (py "not json at all").
    by rewrite loads_not_json.
Qed.

Lemma non_object_response_falls_back_witness :
  (run (measure_compliance (interp := default_interpreter)
          (replies (py "not json at all")) (py "report") (py "GRI"))).1
  = Ok (PyDict [ (py "score", PyNone);
                 (py "strengths", PyStr (py "not json at all"));
                 (py "weaknesses", PyStr []);
                 (py "recommendations", PyStr []) ]).
Proof.
  apply (proj2 (non_object_response_falls_back (interp := default_interpreter)
                  (replies (py "not json at all")) (py "report") (py "GRI") []
                  (py "not json at all") eq_refl)).
  reflexivity.
Defined.

(** ** Facts on the final pass and the encoding *)

Lemma replace_one_char (a b : N) (s : pystr) :
  replace [a] [b] s = List.map (fun c => if c =? a then b else c) s.
Proof.
  unfold replace. induction s as [|c s IH]; [done|].
  cbn [replace_from List.map length Nat.sub].
  unfold startswith. cbn [Json.strip_prefix].
  rewrite (N.eqb_sym a c). destruct (c =? a); cbn [app]; by rewrite IH.
Qed.

Lemma sanitize_page_chars (page : pystr) :
  sanitize_page page = List.map sanitize_char page.
Proof.
  unfold sanitize_page. change (py "'") with [39]. change (py "-") with [45].
  rewrite !replace_one_char, !List.map_map. apply List.map_ext. intros c.
  unfold sanitize_char.
  destruct (N.eqb_spec c 8211) as [->|H1]; [reflexivity|].
  destruct (N.eqb_spec c 8212) as [->|H2]; [reflexivity|].
  reflexivity.
Qed.

Lemma sanitize_char_clean (c : N) :
  sanitize_char c ≠ 8211 ∧ sanitize_char c ≠ 8212 ∧ sanitize_char c ≠ 8217.
Proof.
  unfold sanitize_char.
  destruct (N.eqb_spec c 8217); [done|].
  destruct (N.eqb_spec c 8212); [done|].
  destruct (N.eqb_spec c 8211); done.
Qed.




(** ** The claim on rendering *)








(** ** The fuel of the decoder's loops is sufficient *)

Module JsonFacts.
Import Json.

Lemma skip_ws_length (s : pystr) : (length (skip_ws s) ≤ length s)%nat.
Proof.
  induction s as [|c s IH]; cbn; [lia|]. destruct (is_ws c); cbn; lia.
Qed.

Lemma scanstring_shrink (n : nat) :
  ∀ s acc t r, (length s ≤ n)%nat →
  scanstring s acc = Some (t, r) → (length r < length s)%nat.
Proof.
  induction n as [|n IH]; intros s acc t r Hn.
  - destruct s; [discriminate | cbn in Hn; lia].
  - destruct s as [|c s]; [discriminate|]. cbn [scanstring length] in *.
    destruct (c =? 34); [intros [= _ <-]; lia|].
    destruct (c =? 92).
    + destruct s as [|e r1]; [discriminate|]. cbn [length] in *.
      destruct (e =? 117).
      * destruct r1 as [|h1 [|h2 [|h3 [|h4 r2]]]]; try discriminate.
        cbn [length] in *.
        destruct (hex4 h1 h2 h3 h4) as [u|]; [|discriminate].
        assert (Hr2 : ∀ a, scanstring r2 a = Some (t, r) → (length r < length r2)%nat)
          by (intros a; apply IH; lia).
        destruct (is_high_surrogate u); [|intros H%Hr2; lia].
        destruct r2 as [|b [|x [|g1 [|g2 [|g3 [|g4 r3]]]]]];
          try (intros H%Hr2; cbn [length] in *; lia).
        destruct ((b =? 92) && (x =? 117)); [|intros H%Hr2; cbn [length] in *; lia].
        destruct (hex4 g1 g2 g3 g4) as [u2|]; [|discriminate].
        destruct (is_low_surrogate u2); [|intros H%Hr2; cbn [length] in *; lia].
        intros H%IH; cbn [length] in *; lia.
      * destruct (unescape e); [|discriminate]. intros H%IH; lia.
    + destruct (c <? 32); [discriminate|]. intros H%IH; lia.
Qed.

Lemma span_digits_length (s : pystr) :
  (length (span_digits s).1 + length (span_digits s).2 = length s)%nat.
Proof.
  induction s as [|c s IH]; [done|]. cbn [span_digits].
  destruct (is_digit c); [|done]. destruct (span_digits s). cbn in *. lia.
Qed.

Lemma match_int_shrink (s i r : pystr) :
  match_int s = Some (i, r) → (length r < length s)%nat.
Proof.
  unfold match_int.
  assert (H : ∀ s1 sign, (length s1 ≤ length s)%nat →
     match s1 with
     | c :: r0 => if c =? 48 then Some (sign ++ [48], r0)
                  else if is_digit c then
                    let (d, r') := span_digits r0 in Some (sign ++ c :: d, r')
                  else None
     | [] => None
     end = Some (i, r) → (length r < length s)%nat).
  { intros [|c r0] sign Hl; [discriminate|]. cbn [length] in Hl.
    destruct (c =? 48); [intros [= _ <-]; lia|].
    destruct (is_digit c); [|discriminate].
    pose proof (span_digits_length r0) as Hs. destruct (span_digits r0) as [d r'].
    cbn in Hs. intros [= _ <-]. lia. }
  destruct s as [|c s']; [discriminate|].
  destruct (c =? 45); [apply (H s' [45]) | apply (H (c :: s') [])]; cbn; lia.
Qed.

Lemma match_frac_length (s : pystr) : (length (match_frac s).2 ≤ length s)%nat.
Proof.
  unfold match_frac. destruct s as [|c r]; [done|].
  destruct (c =? 46); [|done].
  pose proof (span_digits_length r) as Hs. destruct (span_digits r) as [d r'].
  destruct d; cbn in *; lia.
Qed.

Lemma match_exp_length (s : pystr) : (length (match_exp s).2 ≤ length s)%nat.
Proof.
  unfold match_exp. destruct s as [|c r]; [done|].
  destruct ((c =? 101) || (c =? 69)); [|done].
  assert (H : ∀ sg r1, (length r1 ≤ length r)%nat →
     (length (let (d, r') := span_digits r1 in
              match d with [] => ([], c :: r) | _ :: _ => (c :: sg ++ d, r') end).2
      ≤ length (c :: r))%nat).
  { intros sg r1 Hl. pose proof (span_digits_length r1) as Hs.
    destruct (span_digits r1) as [d r']. destruct d; cbn in *; lia. }
  destruct r as [|c2 r2]; [apply (H [] []); done|].
  destruct ((c2 =? 43) || (c2 =? 45)); [apply (H [c2] r2) | apply (H [] (c2 :: r2))]; cbn; lia.
Qed.

Lemma match_number_shrink {interp : Interpreter} : shrinking match_number.
Proof.
  intros s v r. unfold match_number.
  destruct (match_int s) as [[i s1]|] eqn:Ei; [|discriminate].
  apply match_int_shrink in Ei.
  pose proof (match_frac_length s1) as Hf. destruct (match_frac s1) as [f s2].
  pose proof (match_exp_length s2) as He. destruct (match_exp s2) as [e s3].
  cbn [snd] in *.
  destruct f, e; try (intros [= _ <-]; lia).
  destruct (int_of_text i); [intros [= _ <-]; lia | discriminate].
Qed.

Lemma strip_prefix_shrink (p : pystr) :
  ∀ s r, p ≠ [] → strip_prefix p s = Some r → (length r < length s)%nat.
Proof.
  induction p as [|a p IH]; intros s r Hp; [done|].
  destruct s as [|b s]; [discriminate|]. cbn [strip_prefix length].
  destruct (a =? b); [|discriminate].
  destruct p as [|a' p]; [intros [= <-]; lia|].
  intros H%IH; [lia | done].
Qed.

Section Loops.
Variable scan : pystr → option (pyval * pystr).
Hypothesis scan_shrinks : shrinking scan.

Lemma array_items_shrink (fuel : nat) :
  ∀ s acc v r, array_items scan fuel s acc = Some (v, r) →
  (length r < length s)%nat.
Proof.
  induction fuel as [|fuel IH]; intros s acc v r; [discriminate|].
  cbn [array_items]. destruct (scan s) as [[x s1]|] eqn:Es; [|discriminate].
  apply scan_shrinks in Es. pose proof (skip_ws_length s1) as Hw.
  destruct (skip_ws s1) as [|c r0]; [discriminate|]. cbn [length] in Hw.
  destruct (c =? 93); [intros [= _ <-]; lia|].
  destruct (c =? 44); [|discriminate].
  intros H%IH. pose proof (skip_ws_length r0). lia.
Qed.

Lemma object_items_shrink (fuel : nat) :
  ∀ s acc v r, object_items scan fuel s acc = Some (v, r) →
  (length r < length s)%nat.
Proof.
  induction fuel as [|fuel IH]; intros s acc v r; [discriminate|].
  cbn [object_items]. destruct s as [|c s0]; [discriminate|].
  destruct (c =? 34); [|discriminate].
  destruct (scanstring s0 []) as [[key s1]|] eqn:Ek; [|discriminate].
  apply (scanstring_shrink (length s0)) in Ek; [|done].
  pose proof (skip_ws_length s1) as Hw1.
  destruct (skip_ws s1) as [|c1 r1]; [discriminate|]. cbn [length] in *.
  destruct (c1 =? 58); [|discriminate].
  destruct (scan (skip_ws r1)) as [[x s2]|] eqn:Es; [|discriminate].
  apply scan_shrinks in Es. pose proof (skip_ws_length r1) as Hw2.
  pose proof (skip_ws_length s2) as Hw3.
  destruct (skip_ws s2) as [|c2 r2]; [discriminate|]. cbn [length] in *.
  destruct (c2 =? 125); [intros [= _ <-]; lia|].
  destruct (c2 =? 44); [|discriminate].
  intros H%IH. pose proof (skip_ws_length r2). lia.
Qed.

(** Any fuel that covers the length of the input gives the same result. *)
Lemma array_items_fuel (f1 : nat) :
  ∀ f2 s acc, (length s ≤ f1)%nat → (length s ≤ f2)%nat →
  array_items scan f1 s acc = array_items scan f2 s acc.
Proof.
  induction f1 as [|f1 IH]; intros f2 s acc H1 H2.
  - destruct s; [|cbn in H1; lia]. destruct f2; [done|]. cbn [array_items].
    destruct (scan []) as [[x s1]|] eqn:Es; [|done].
    apply scan_shrinks in Es. cbn in Es. lia.
  - destruct f2 as [|f2].
    + destruct s; [|cbn in H2; lia]. cbn [array_items].
      destruct (scan []) as [[x s1]|] eqn:Es; [|done].
      apply scan_shrinks in Es. cbn in Es. lia.
    + cbn [array_items]. destruct (scan s) as [[x s1]|] eqn:Es; [|done].
      apply scan_shrinks in Es. pose proof (skip_ws_length s1) as Hw.
      destruct (skip_ws s1) as [|c r0]; [done|]. cbn [length] in Hw.
      destruct (c =? 93); [done|]. destruct (c =? 44); [|done].
      pose proof (skip_ws_length r0). apply IH; lia.
Qed.

Lemma object_items_fuel (f1 : nat) :
  ∀ f2 s acc, (length s ≤ f1)%nat → (length s ≤ f2)%nat →
  object_items scan f1 s acc = object_items scan f2 s acc.
Proof.
  induction f1 as [|f1 IH]; intros f2 s acc H1 H2.
  - destruct s; [|cbn in H1; lia]. by destruct f2.
  - destruct f2 as [|f2].
    + destruct s; [done | cbn in H2; lia].
    + cbn [object_items]. destruct s as [|c s0]; [done|].
      destruct (c =? 34); [|done].
      destruct (scanstring s0 []) as [[key s1]|] eqn:Ek; [|done].
      apply (scanstring_shrink (length s0)) in Ek; [|done].
      pose proof (skip_ws_length s1) as Hw1.
      destruct (skip_ws s1) as [|c1 r1]; [done|]. cbn [length] in *.
      destruct (c1 =? 58); [|done].
      destruct (scan (skip_ws r1)) as [[x s2]|] eqn:Es; [|done].
      apply scan_shrinks in Es. pose proof (skip_ws_length r1) as Hw2.
      pose proof (skip_ws_length s2) as Hw3.
      destruct (skip_ws s2) as [|c2 r2]; [done|]. cbn [length] in *.
      destruct (c2 =? 125); [done|]. destruct (c2 =? 44); [|done].
      pose proof (skip_ws_length r2). apply IH; lia.
Qed.
End Loops.

Lemma scan_once_shrink {interp : Interpreter} (depth : nat) :
  shrinking (scan_once depth).
Proof.
  induction depth as [|d IH]; intros s v r;
    (destruct s as [|c s0]; [discriminate|]); cbn [scan_once].
  all: destruct (c =? 34);
    [destruct (scanstring s0 []) as [[t r']|] eqn:Ek; [|discriminate];
     apply (scanstring_shrink (length s0)) in Ek; [|done];
     intros [= _ <-]; cbn; lia|].
  all: destruct (c =? 123).
  1: discriminate.
  2: { unfold parse_object. pose proof (skip_ws_length s0) as Hw.
       destruct (skip_ws s0) as [|c1 r1] eqn:Ew; [discriminate|].
       destruct (c1 =? 125); [intros [= _ <-]; cbn in *; lia|].
       intros H%object_items_shrink; [cbn in *; lia | exact IH]. }
  all: destruct (c =? 91).
  1: discriminate.
  2: { unfold parse_array. pose proof (skip_ws_length s0) as Hw.
       destruct (skip_ws s0) as [|c1 r1] eqn:Ew; [discriminate|].
       destruct (c1 =? 93); [intros [= _ <-]; cbn in *; lia|].
       intros H%array_items_shrink; [cbn in *; lia | exact IH]. }
  all: repeat match goal with
       | |- context [strip_prefix ?p ?x] =>
         let E := fresh "E" in
         destruct (strip_prefix p x) as [?|] eqn:E;
         [apply strip_prefix_shrink in E; [|discriminate];
          intros [= _ <-]; exact E|]
       end.
  all: apply match_number_shrink.
Qed.

(** The loops of [parse_array] and [parse_object] start with the length of
    their input as fuel; no larger fuel would change their result, so the
    fuel is never what makes the decoder fail. *)
Lemma array_fuel_sufficient {interp : Interpreter} (depth fuel : nat)
    (s : pystr) (acc : list pyval) :
  (length s ≤ fuel)%nat →
  array_items (scan_once depth) fuel s acc
  = array_items (scan_once depth) (length s) s acc.
Proof.
  intros H. apply array_items_fuel; [apply scan_once_shrink | done | done].
Qed.

Lemma object_fuel_sufficient {interp : Interpreter} (depth fuel : nat)
    (s : pystr) (acc : list (pystr * pyval)) :
  (length s ≤ fuel)%nat →
  object_items (scan_once depth) fuel s acc
  = object_items (scan_once depth) (length s) s acc.
Proof.
  intros H. apply object_items_fuel; [apply scan_once_shrink | done | done].
Qed.
End JsonFacts.

(** * Further properties *)

(** ** Labels *)

Section LabelFacts.
Context {udb : UnicodeDB}.

Lemma normalize_key_ascii (s : pystr) :
  ascii_text s →
  normalize_key s = List.filter ascii_isalnum (List.map ascii_lower s).
Proof.
  unfold ascii_text, normalize_key, lower. intros Hs. rewrite Hs.
  induction s as [|c s IH]; [done|]. cbn [forallb] in Hs.
  apply andb_prop in Hs as [Hc Hs]. cbn [List.map List.filter].
  rewrite (IH Hs).
  replace (isalnum (ascii_lower c)) with (ascii_isalnum (ascii_lower c)); [done|].
  unfold isalnum, is_ascii, ascii_lower in *. apply N.ltb_lt in Hc.
  destruct ((65 <=? c) && (c <=? 90)) eqn:E.
  - apply andb_prop in E as [_ E%N.leb_le].
    by rewrite (proj2 (N.ltb_lt (c + 32) 128)) by lia.
  - by rewrite (proj2 (N.ltb_lt c 128)) by lia.
Qed.

Lemma ascii_lower_alnum (c : N) :
  ascii_isalnum (ascii_lower c) = true → lower_alnum (ascii_lower c).
Proof.
  unfold ascii_isalnum, ascii_lower, lower_alnum.
  destruct ((65 <=? c) && (c <=? 90)) eqn:E.
  - apply andb_prop in E as [E1%N.leb_le E2%N.leb_le]. intros _. right. lia.
  - intros H. rewrite E in H. rewrite orb_false_r in H.
    apply orb_prop in H as [H|H]; apply andb_prop in H as [H1%N.leb_le H2%N.leb_le];
      [left | right]; lia.
Qed.

Lemma lower_alnum_fixed (c : N) :
  lower_alnum c → ascii_lower c = c ∧ ascii_isalnum c = true ∧ is_ascii c = true.
Proof.
  unfold lower_alnum, ascii_lower, ascii_isalnum, is_ascii. intros H.
  assert (E : (65 <=? c) && (c <=? 90) = false).
  { apply andb_false_iff. destruct H; [left | right]; apply N.leb_gt; lia. }
  rewrite E. split; [done|]. split.
  - destruct H as [[H1 H2]|[H1 H2]].
    + by rewrite (proj2 (N.leb_le 48 c)), (proj2 (N.leb_le c 57)).
    + rewrite (proj2 (N.leb_le 97 c)), (proj2 (N.leb_le c 122)) by done.
      by rewrite orb_true_r.
  - apply N.ltb_lt. lia.
Qed.

Lemma normalize_key_alphabet (s : pystr) :
  ascii_text s → Forall lower_alnum (normalize_key s).
Proof.
  intros Hs. rewrite (normalize_key_ascii s Hs). clear Hs.
  induction s as [|c s IH]; [constructor|]. cbn [List.map List.filter].
  destruct (ascii_isalnum (ascii_lower c)) eqn:E; [|done].
  constructor; [by apply ascii_lower_alnum | done].
Qed.

Lemma lower_alnum_normalized (s : pystr) :
  Forall lower_alnum s → ascii_text s ∧ normalize_key s = s.
Proof.
  intros Hs.
  assert (Ha : ascii_text s).
  { unfold ascii_text. induction Hs as [|c s Hc _ IH]; [done|]. cbn [forallb].
    by rewrite (proj2 (proj2 (lower_alnum_fixed c Hc))), IH. }
  split; [done|]. rewrite (normalize_key_ascii s Ha).
  induction Hs as [|c s Hc Hs IH]; [done|]. cbn [List.map List.filter].
  cbn [forallb] in Ha. apply andb_prop in Ha as [_ Ha].
  destruct (lower_alnum_fixed c Hc) as (-> & -> & _). by rewrite (IH Ha).
Qed.

Lemma ascii_text_app (a b : pystr) :
  ascii_text (a ++ b) ↔ ascii_text a ∧ ascii_text b.
Proof. unfold ascii_text. rewrite forallb_app. apply andb_true_iff. Qed.
End LabelFacts.

(** X1: on an ASCII label, [normalize_key] yields only lowercase ASCII
    letters and ASCII digits, and normalizing again changes nothing. *)
Theorem normalize_key_ascii_canonical {udb : UnicodeDB} (s : pystr) :
  ascii_text s →
  Forall lower_alnum (normalize_key s)
  ∧ normalize_key (normalize_key s) = normalize_key s.
Proof.
  intros Hs. pose proof (normalize_key_alphabet s Hs) as H.
  split; [done|]. by apply lower_alnum_normalized.
Qed.

Lemma normalize_key_ascii_canonical_witness :
  normalize_key (udb := ascii_db)
    (normalize_key (udb := ascii_db) (py "Labor-Practices 2024!"))
  = normalize_key (udb := ascii_db) (py "Labor-Practices 2024!").
Proof.
  apply (proj2 (normalize_key_ascii_canonical (udb := ascii_db)
                  (py "Labor-Practices 2024!") eq_refl)).
Defined.

(** X2: on ASCII labels, [normalize_key] does not see case or punctuation:
    a character that is not alphanumeric can be dropped from the label, and
    a character can be replaced by its lowercase form, without changing the
    normalized key. *)
Theorem normalize_key_case_punctuation {udb : UnicodeDB}
    (s1 s2 : pystr) (c : N) :
  ascii_text s1 → ascii_text s2 → is_ascii c = true →
  (ascii_isalnum c = false →
   normalize_key (s1 ++ c :: s2) = normalize_key (s1 ++ s2))
  ∧ normalize_key (s1 ++ ascii_lower c :: s2) = normalize_key (s1 ++ c :: s2).
Proof.
  intros H1 H2 Hc.
  assert (Hlc : is_ascii (ascii_lower c) = true).
  { unfold is_ascii, ascii_lower in *. apply N.ltb_lt in Hc.
    destruct ((65 <=? c) && (c <=? 90)) eqn:E; apply N.ltb_lt; [|done].
    apply andb_prop in E as [_ E%N.leb_le]. lia. }
  assert (Hll : ascii_lower (ascii_lower c) = ascii_lower c).
  { unfold ascii_lower. destruct ((65 <=? c) && (c <=? 90)) eqn:E; [|by rewrite E].
    apply andb_prop in E as [E1%N.leb_le E2%N.leb_le].
    replace ((65 <=? c + 32) && (c + 32 <=? 90)) with false; [done|].
    symmetry. apply andb_false_iff. right. apply N.leb_gt. lia. }
  assert (Ha : ∀ x, is_ascii x = true → ascii_text (s1 ++ x :: s2)).
  { intros x Hx. apply ascii_text_app. split; [done|].
    unfold ascii_text. cbn [forallb]. by rewrite Hx. }
  rewrite !normalize_key_ascii by (by apply Ha || by apply ascii_text_app).
  rewrite !List.map_app, !List.filter_app. cbn [List.map List.filter].
  rewrite Hll. split; [|done]. intros Hn.
  replace (ascii_isalnum (ascii_lower c)) with false; [done|].
  symmetry. unfold ascii_lower. destruct ((65 <=? c) && (c <=? 90)) eqn:E; [|done].
  unfold ascii_isalnum in Hn. rewrite E in Hn. by rewrite orb_true_r in Hn.
Qed.

Lemma normalize_key_case_punctuation_witness :
  normalize_key (udb := ascii_db) (py "supply-chain")
  = normalize_key (udb := ascii_db) (py "supplychain")
  ∧ normalize_key (udb := ascii_db) (py "supply chain")
    = normalize_key (udb := ascii_db) (py "supply Chain").
Proof.
  split.
  - apply (proj1 (normalize_key_case_punctuation (udb := ascii_db)
                    (py "supply") (py "chain") 45 eq_refl eq_refl eq_refl)).
    reflexivity.
  - apply (proj2 (normalize_key_case_punctuation (udb := ascii_db)
                    (py "supply ") (py "hain") 67 eq_refl eq_refl eq_refl)).
Defined.

(** ** Further properties of ingestion *)

(** X3: the tables agree: the keys of [questions] are pairwise distinct,
    [predefined_keys] maps distinct labels to distinct slots, and every key
    of [questions], used as a label, resolves to itself. *)
Theorem tables_consistent {udb : UnicodeDB} :
  NoDup (questions.*1)
  ∧ NoDup ((map_to_list predefined_keys).*2)
  ∧ Forall (fun q => resolve (fst q) = Some (fst q)) questions.
Proof.
  split; [|split].
  - apply (bool_decide_eq_true_1 (NoDup (questions.*1))).
    vm_compute. reflexivity.
  - apply (bool_decide_eq_true_1 (NoDup ((map_to_list predefined_keys).*2))).
    vm_compute. reflexivity.
  - assert (H : forallb (fun q => bool_decide (resolve (fst q) = Some (fst q)))
                  questions = true) by (vm_compute; reflexivity).
    rewrite forallb_forall in H. apply Forall_forall. intros q Hq.
    apply (bool_decide_eq_true_1 _). by apply H, list_elem_of_In.
Qed.

Lemma tables_slots_distinct : NoDup (questions.*1).
Proof.
  apply (bool_decide_eq_true_1 (NoDup (questions.*1))). vm_compute. reflexivity.
Qed.

Section IngestionMore.
Context {udb : UnicodeDB}.

Lemma store_union (key_candidate value : pystr) (m : gmap pystr pystr) :
  store key_candidate value m = store key_candidate value ∅ ∪ m.
Proof.
  unfold store. destruct (predefined_keys !! normalize_key key_candidate).
  - by rewrite insert_union_singleton_l, insert_empty.
  - by rewrite (left_id_L ∅ (∪)).
Qed.

Lemma store_all_union (pairs : list (pystr * pystr)) :
  ∀ m : gmap pystr pystr, store_all pairs m = store_all pairs ∅ ∪ m.
Proof.
  unfold store_all. induction pairs as [|[l v] pairs IH]; intros m; cbn [fold_left fst snd].
  - by rewrite (left_id_L ∅ (∪)).
  - rewrite (IH (store l v m)), (IH (store l v ∅)), (store_union l v m).
    by rewrite (assoc_L (∪)).
Qed.

Lemma store_all_app (p1 p2 : list (pystr * pystr)) (m : gmap pystr pystr) :
  store_all (p1 ++ p2) m = store_all p2 (store_all p1 m).
Proof. unfold store_all. apply fold_left_app. Qed.

Lemma store_unresolved (key_candidate value : pystr) (m : gmap pystr pystr) :
  resolve key_candidate = None → store key_candidate value m = m.
Proof. unfold store, resolve, lookup_slot. by intros ->. Qed.

Lemma store_all_filter (pairs : list (pystr * pystr)) :
  ∀ m : gmap pystr pystr,
  store_all (List.filter (fun p => bool_decide (is_Some (resolve (fst p)))) pairs) m
  = store_all pairs m.
Proof.
  unfold store_all. induction pairs as [|[l v] pairs IH]; intros m; [done|].
  cbn [List.filter fold_left fst snd]. case_bool_decide as H.
  - cbn [fold_left fst snd]. apply IH.
  - rewrite IH. f_equal. symmetry. apply store_unresolved.
    destruct (resolve l); [exfalso; apply H; eauto | done].
Qed.

Lemma spec_pairs_app (df : DataFrame) (r1 r2 : list (list cell)) :
  spec_pairs (with_rows df (r1 ++ r2))
  = spec_pairs (with_rows df r1) ++ spec_pairs (with_rows df r2).
Proof.
  unfold spec_pairs, with_rows, has_column. cbn [columns rows].
  destruct (existsb _ (columns df) && existsb _ (columns df)); apply List.map_app.
Qed.

Lemma map_filter_fst {A : Type} (f : A → pystr * pystr) (P : pystr → bool)
    (l : list A) :
  List.map f (List.filter (fun x => P (fst (f x))) l)
  = List.filter (fun p => P (fst p)) (List.map f l).
Proof.
  induction l as [|x l IH]; [done|]. cbn [List.map List.filter].
  destruct (P (f x).1); cbn [List.map]; by rewrite IH.
Qed.

Lemma spec_pairs_drop_unresolved (df : DataFrame) :
  spec_pairs (drop_unresolved df)
  = List.filter (fun p => bool_decide (is_Some (resolve (fst p)))) (spec_pairs df).
Proof.
  unfold spec_pairs, drop_unresolved, row_label, has_column. cbn [columns rows].
  set (P := fun l : pystr => bool_decide (is_Some (resolve l))).
  destruct (existsb _ (columns df) && existsb _ (columns df)).
  - exact (map_filter_fst
      (fun row =>
         (py_str (nth (default O (label_index (py "Key") (columns df))) row CNaN),
          py_str (nth (default O (label_index (py "Value") (columns df))) row CNaN)))
      P (rows df)).
  - exact (map_filter_fst
      (fun row =>
         (py_str (nth 0 row CNaN),
          if (2 <=? length row)%nat then py_str (nth 1 row CNaN) else []))
      P (rows df)).
Qed.

Lemma existsb_take {A : Type} (f : A → bool) (n : nat) (l : list A) :
  existsb f (take n l) = true → existsb f l = true.
Proof.
  revert n. induction l as [|x l IH]; intros [|n]; cbn; try done.
  destruct (f x); [done|]. apply IH.
Qed.

Lemma ingest_positional_take (rs : list (list cell)) :
  ∀ m : gmap pystr pystr,
  ingest_positional (List.map (take 2) rs) m = ingest_positional rs m.
Proof.
  induction rs as [|row rs IH]; intros m; [done|].
  cbn [List.map ingest_positional].
  destruct row as [|a [|b row]]; cbn; [done | apply IH | apply IH].
Qed.
End IngestionMore.

(** X4: whatever the source, the map returned by [parse_uploaded_excel]
    has at most 24 entries, and the function does nothing to the outside
    but report at most one error through [st.error]. *)
Theorem parse_result_bounded {udb : UnicodeDB}
    (file : result DataFrame) (t : trace) :
  (size (parse_uploaded_excel file t).1 ≤ 24)%nat
  ∧ ((parse_uploaded_excel file t).2 = t
     ∨ ∃ e, (parse_uploaded_excel file t).2
            = t ++ [StError (py "Error processing Excel file: " ++ e)]).
Proof.
  split.
  - rewrite <- size_dom.
    assert (Hsub : dom (parse_uploaded_excel file t).1
                   ⊆ list_to_set (C := gset pystr) (questions.*1)).
    { intros k Hk. apply elem_of_list_to_set. by apply parse_keys_in_table in Hk as [_ ?]. }
    apply subseteq_size in Hsub. etrans; [exact Hsub|].
    rewrite size_list_to_set by apply tables_slots_distinct.
    rewrite length_fmap. by vm_compute.
  - unfold parse_uploaded_excel. destruct (try_body file ∅) as [m [e|]]; cbn; eauto.
Qed.

(** X5: on a rectangular table with at least one column, the rows whose
    label resolves to no slot have no effect: the table without them gives
    the same map and the same (empty) report. *)
Theorem unresolved_rows_have_no_effect {udb : UnicodeDB}
    (df : DataFrame) (t : trace) :
  well_formed df → columns df ≠ [] →
  parse_uploaded_excel (Ok (drop_unresolved df)) t
  = parse_uploaded_excel (Ok df) t.
Proof.
  intros Hwf Hcols.
  assert (Hwf' : well_formed (drop_unresolved df)).
  { unfold well_formed, drop_unresolved in *. cbn [columns rows].
    apply Forall_forall. intros row [Hrow _]%list_elem_of_In%filter_In.
    rewrite Forall_forall in Hwf. by apply Hwf, list_elem_of_In. }
  rewrite (parse_store_all df t Hwf Hcols).
  rewrite (parse_store_all (drop_unresolved df) t Hwf' Hcols).
  by rewrite spec_pairs_drop_unresolved, store_all_filter.
Qed.

Lemma unresolved_rows_have_no_effect_witness :
  run (parse_uploaded_excel (udb := ascii_db)
         (Ok (drop_unresolved (udb := ascii_db) positional_example)))
  = run (parse_uploaded_excel (udb := ascii_db) (Ok positional_example))
  ∧ length (rows (drop_unresolved (udb := ascii_db) positional_example)) = 2%nat.
Proof.
  split; [|vm_compute; reflexivity].
  apply (unresolved_rows_have_no_effect (udb := ascii_db) positional_example []).
  - repeat constructor.
  - discriminate.
Defined.

(** X6: reading two batches of rows under the same columns, one after the
    other, is reading the second batch on top of the first: the map of the
    concatenated table is the map of the second batch, completed by the
    entries of the first batch for the slots the second does not set. *)
Theorem later_rows_override {udb : UnicodeDB}
    (df : DataFrame) (r1 r2 : list (list cell)) (t : trace) :
  well_formed (with_rows df r1) → well_formed (with_rows df r2) →
  columns df ≠ [] →
  (parse_uploaded_excel (Ok (with_rows df (r1 ++ r2))) t).1
  = (parse_uploaded_excel (Ok (with_rows df r2)) t).1
    ∪ (parse_uploaded_excel (Ok (with_rows df r1)) t).1.
Proof.
  intros H1 H2 Hcols.
  assert (H12 : well_formed (with_rows df (r1 ++ r2))).
  { unfold well_formed, with_rows in *. cbn [columns rows] in *. by apply Forall_app. }
  rewrite (parse_store_all _ t H1 Hcols), (parse_store_all _ t H2 Hcols),
    (parse_store_all _ t H12 Hcols). cbn [fst].
  rewrite spec_pairs_app, store_all_app. apply store_all_union.
Qed.

Lemma later_rows_override_witness :
  (run (parse_uploaded_excel (udb := ascii_db)
          (Ok (with_rows positional_example
                 ([[CStr (py "Industry"); CStr (py "Retail")];
                   [CStr (py "KPI"); CStr (py "Scope 1")]]
                  ++ [[CStr (py "INDUSTRY"); CStr (py "Wholesale")]]))))).1
  = (run (parse_uploaded_excel (udb := ascii_db)
            (Ok (with_rows positional_example
                   [[CStr (py "INDUSTRY"); CStr (py "Wholesale")]])))).1
    ∪ (run (parse_uploaded_excel (udb := ascii_db)
              (Ok (with_rows positional_example
                     [[CStr (py "Industry"); CStr (py "Retail")];
                      [CStr (py "KPI"); CStr (py "Scope 1")]])))).1.
Proof.
  apply (later_rows_override (udb := ascii_db) positional_example
           [[CStr (py "Industry"); CStr (py "Retail")];
            [CStr (py "KPI"); CStr (py "Scope 1")]]
           [[CStr (py "INDUSTRY"); CStr (py "Wholesale")]] []).
  - repeat constructor.
  - repeat constructor.
  - discriminate.
Defined.

(** X7: when the frame does not have both columns Key and Value, only its
    first two columns count: the frame cut down to them gives the same map
    and the same report, on every frame. *)
Theorem only_first_two_columns_count {udb : UnicodeDB}
    (df : DataFrame) (t : trace) :
  has_column (py "Key") df && has_column (py "Value") df = false →
  parse_uploaded_excel (Ok (first_two_columns df)) t
  = parse_uploaded_excel (Ok df) t.
Proof.
  intros Hpos. unfold parse_uploaded_excel. cbn [try_body]. rewrite Hpos.
  replace (has_column (py "Key") (first_two_columns df)
           && has_column (py "Value") (first_two_columns df)) with false.
  - unfold first_two_columns. cbn [rows]. by rewrite ingest_positional_take.
  - symmetry. apply not_true_is_false. intros [Hk Hv]%andb_prop.
    unfold has_column, first_two_columns in *. cbn [columns] in *.
    apply existsb_take in Hk, Hv. by rewrite Hk, Hv in Hpos.
Qed.

Lemma only_first_two_columns_count_witness :
  run (parse_uploaded_excel (udb := ascii_db) (Ok (first_two_columns three_column_example)))
  = run (parse_uploaded_excel (udb := ascii_db) (Ok three_column_example)).
Proof.
  apply (only_first_two_columns_count (udb := ascii_db) three_column_example []).
  reflexivity.
Defined.

(** ** Further properties of generation *)

Section GenerationMore.
Variable llm : pystr -> nat -> pystr -> result pystr.

Lemma report_loop_ext (rd1 rd2 : gmap pystr pystr) (standard : pystr)
    (total_sections : Z) (qs : list (pystr * pystr)) :
  (∀ q, q ∈ qs → same_answer rd1 rd2 (fst q)) →
  ∀ (full_report : pystr) (completed : Z) (t : trace),
  report_loop llm qs rd1 standard total_sections full_report completed t
  = report_loop llm qs rd2 standard total_sections full_report completed t.
Proof.
  induction qs as [|[key question_text] qs IH]; intros Hq full_report completed t;
    [done|].
  cbn [report_loop].
  assert (IH' := IH (λ q Hin, Hq q (list_elem_of_further _ _ _ Hin))).
  destruct (Hq (key, question_text) ltac:(by left)) as [Hk|[H1 H2]]; cbn [fst] in *.
  - rewrite Hk. destruct (truthy _); [|apply IH'].
    unfold bind. destruct (generate_section _ _ _ _ _ t) as [c t'].
    unfold emit. apply IH'.
  - rewrite H1, H2. apply IH'.
Qed.

Lemma answered_ext (rd1 rd2 : gmap pystr pystr) :
  (∀ key, key ∈ questions.*1 → same_answer rd1 rd2 key) →
  answered_keys rd1 = answered_keys rd2.
Proof.
  intros Hq. unfold answered_keys. f_equal. apply List.filter_ext_in.
  intros q Hin%list_elem_of_In.
  destruct (Hq q.1) as [->|[-> ->]]; [apply list_elem_of_fmap; eauto | done | done].
Qed.

Lemma blocks_succeed (report_data : gmap pystr pystr) (standard : pystr)
    (qs : list (pystr * pystr)) :
  (∀ n q, ∃ content, outcome llm report_data standard n q = Ok content) →
  ∀ n, blocks llm report_data standard n qs
       = claimed_report llm report_data standard n qs
       ∧ loop_errors llm report_data standard n qs = [].
Proof.
  intros Hok. induction qs as [|q qs IH]; intros n; [done|].
  cbn [blocks claimed_report loop_errors]. destruct (IH (S n)) as [-> ->].
  destruct (Hok n q) as [content ->]. done.
Qed.
End GenerationMore.

(** X8: a run of [generate_full_report] depends on the answers only
    through the 24 keys of the questionnaire, and an answer that is missing
    or blank after trimming counts as no answer: two answer maps that, at
    every key of the questionnaire, hold the same answer or both hold no
    answer give the same report and the same trace, whatever else they
    hold. *)
Theorem only_questionnaire_keys_count
    (llm : pystr -> nat -> pystr -> result pystr)
    (rd1 rd2 : gmap pystr pystr) (standard : pystr) (t : trace) :
  (∀ key, key ∈ questions.*1 → same_answer rd1 rd2 key) →
  generate_full_report llm rd1 standard t = generate_full_report llm rd2 standard t.
Proof.
  intros Hq. unfold generate_full_report. rewrite (answered_ext rd1 rd2 Hq).
  destruct (_ =? 0)%Z; [done|]. unfold bind, emit.
  apply report_loop_ext. intros q Hin. apply Hq, list_elem_of_fmap. eauto.
Qed.

Lemma only_questionnaire_keys_count_witness :
  run (generate_full_report fails_first two_answers_and_noise (py "GRI"))
  = run (generate_full_report fails_first two_answers (py "GRI")).
Proof.
  apply (only_questionnaire_keys_count fails_first two_answers_and_noise
           two_answers (py "GRI") []).
  intros key Hkey. unfold same_answer, dict_get, two_answers_and_noise.
  destruct (decide (key = py "overview")) as [->|Hne].
  - right. split; [by rewrite lookup_insert_eq | by vm_compute].
  - left. rewrite lookup_insert_ne by done.
    destruct (decide (key = py "notes")) as [->|Hne'].
    + exfalso. revert Hkey. apply (bool_decide_eq_false_1 (py "notes" ∈ questions.*1)).
      vm_compute. reflexivity.
    + by rewrite lookup_insert_ne.
Defined.

(** X9: when every call of the service succeeds and at least one slot is
    answered, the assembled text is exactly one heading block per answered
    slot, in questionnaire order, each holding the content the service
    returned, and nothing is reported through [st.error]. *)
Theorem successful_run_report
    (llm : pystr -> nat -> pystr -> result pystr)
    (report_data : gmap pystr pystr) (standard : pystr) :
  answered report_data ≠ [] →
  (∀ n q, ∃ content, outcome llm report_data standard n q = Ok content) →
  (run (generate_full_report llm report_data standard)).1
  = claimed_report llm report_data standard 0 (answered report_data)
  ∧ error_messages (run (generate_full_report llm report_data standard)).2 = [].
Proof.
  intros Hne Hok.
  pose proof (generate_full_report_spec llm report_data standard Hne) as E.
  destruct (run (generate_full_report llm report_data standard)) as [out tr].
  cbn [fst snd]. injection E as -> ->.
  destruct (blocks_succeed llm report_data standard (answered report_data) Hok 0)
    as [Hb He].
  split; [exact Hb|]. by rewrite error_messages_progress, error_messages_loop.
Qed.

Lemma successful_run_report_witness :
  (run (generate_full_report always_succeeds two_answers (py "GRI"))).1
  = (py "# S" ++ nl ++ nl) ++ (py "# S" ++ nl ++ nl).
Proof.
  refine (eq_trans (proj1 (successful_run_report always_succeeds two_answers
                             (py "GRI") _ _)) _).
  - vm_compute. discriminate.
  - intros n q. exists (py "S"). reflexivity.
  - vm_compute. reflexivity.
Defined.

(** X10: every value [generate_full_report] passes to the progress bar lies
    between 4 and 100, in every run; the bar, created at 0, is never sent
    out of its range and never sent back to 0. *)
Theorem progress_values_in_range
    (llm : pystr -> nat -> pystr -> result pystr)
    (report_data : gmap pystr pystr) (standard : pystr) :
  Forall (fun v => (4 ≤ v ≤ 100)%Z)
         (progress_values (run (generate_full_report llm report_data standard)).2).
Proof.
  destruct (answered report_data) as [|q0 qs0] eqn:Ea.
  - assert (E : run (generate_full_report llm report_data standard)
                = ([], [StError (py "No responses provided.")])).
    { unfold run, generate_full_report, answered_keys.
      fold (answered report_data). by rewrite Ea. }
    rewrite E. constructor.
  - assert (Hne : answered report_data ≠ []) by (by rewrite Ea).
    pose proof (generate_full_report_spec llm report_data standard Hne) as E.
    destruct (run (generate_full_report llm report_data standard)) as [out tr].
    cbn [snd]. injection E as -> ->.
    rewrite progress_values_progress, progress_values_loop.
    pose proof (answered_bound report_data) as Hle.
    apply Forall_forall. intros v [i [<- [Hi1 Hi2]%in_seq]]%list_elem_of_In%in_map_iff.
    rewrite Z.add_0_l, progress_percent_floor by lia.
    set (total := length (answered report_data)) in *.
    split.
    + apply Z.div_le_lower_bound; lia.
    + apply Z.div_le_upper_bound; lia.
Qed.

(** ** Further properties of evaluation *)

(** X11: [measure_compliance] calls the service exactly once and reports
    nothing through [st.error]; it raises exactly when the call raises, with
    the same exception, and what it returns otherwise is always a
    dictionary, whatever the response. *)
Theorem measure_compliance_outcome {interp : Interpreter}
    (llm : pystr -> nat -> pystr -> result pystr)
    (report_text standard : pystr) (t : trace) :
  (measure_compliance llm report_text standard t).2
  = t ++ [LlmCall (py "gpt-4") (compliance_prompt report_text standard)]
  ∧ match llm (py "gpt-4") (llm_calls t) (compliance_prompt report_text standard) with
    | Raise e => (measure_compliance llm report_text standard t).1 = Raise e
    | Ok content =>
      ∃ data, (measure_compliance llm report_text standard t).1 = Ok (PyDict data)
    end.
Proof.
  unfold measure_compliance, bind, call_llm, ret.
  destruct (llm _ _ _) as [content|e]; cbn [fst snd]; [|done].
  split; [done|]. unfold parse_response, fallback.
  destruct (Json.loads (strip content)) as [[]|]; cbn [is_dict negb]; eauto.
Qed.

(** X12: for a non-negative bound, [shorten_text] returns a prefix of the
    text of at most that many characters, returns the text itself when it
    is short enough, and shortening twice is shortening once. *)
Theorem shorten_text_prefix (text : pystr) (max_chars : Z) :
  (0 ≤ max_chars)%Z →
  shorten_text text max_chars = take (Z.to_nat max_chars) text
  ∧ (Z.of_nat (length (shorten_text text max_chars)) ≤ max_chars)%Z
  ∧ ((Z.of_nat (length text) ≤ max_chars)%Z → shorten_text text max_chars = text)
  ∧ shorten_text (shorten_text text max_chars) max_chars
    = shorten_text text max_chars.
Proof.
  intros Hm.
  assert (E : ∀ s, shorten_text s max_chars = take (Z.to_nat max_chars) s).
  { intros s. unfold shorten_text. destruct (Z.leb_spec (Z.of_nat (length s)) max_chars).
    - symmetry. apply take_ge. lia.
    - by rewrite (proj2 (Z.leb_le 0 max_chars)). }
  split; [apply E|]. split; [|split].
  - rewrite E, length_take. lia.
  - intros Hl. rewrite E. apply take_ge. lia.
  - rewrite !E. rewrite take_take. f_equal. lia.
Qed.

Lemma shorten_text_prefix_witness :
  shorten_text (py "Sustainability") 7 = py "Sustain".
Proof.
  refine (eq_trans (proj1 (shorten_text_prefix (py "Sustainability") 7 _)) _).
  - discriminate.
  - reflexivity.
Defined.

(** ** Trimming *)

Lemma lstrip_spec (s : pystr) :
  lstrip s = [] ∨ ∃ c r, lstrip s = c :: r ∧ isspace c = false.
Proof.
  induction s as [|c s IH]; [by left|]. cbn [lstrip].
  destruct (isspace c) eqn:E; [done|]. right. eauto.
Qed.

Lemma lstrip_fixed (s : pystr) :
  (s = [] ∨ ∃ c r, s = c :: r ∧ isspace c = false) → lstrip s = s.
Proof. intros [->|(c & r & -> & H)]; [done|]. cbn [lstrip]. by rewrite H. Qed.

Lemma lstrip_snoc (s : pystr) (c : N) :
  isspace c = false → ∃ l, lstrip (s ++ [c]) = l ++ [c].
Proof.
  intros Hc. induction s as [|d s IH]; cbn [app lstrip].
  - rewrite Hc. by exists [].
  - destruct (isspace d); [done|]. by exists (d :: s).
Qed.

Lemma rstrip_cons (c : N) (r : pystr) :
  isspace c = false → ∃ l, rstrip (c :: r) = c :: l.
Proof.
  intros Hc. unfold rstrip. cbn [rev].
  destruct (lstrip_snoc (rev r) c Hc) as [l ->].
  rewrite rev_app_distr. cbn. eauto.
Qed.

Lemma rstrip_idem (s : pystr) : rstrip (rstrip s) = rstrip s.
Proof.
  unfold rstrip. rewrite rev_involutive. f_equal.
  apply lstrip_fixed. apply lstrip_spec.
Qed.

Lemma strip_idem (s : pystr) : strip (strip s) = strip s.
Proof.
  unfold strip.
  destruct (lstrip_spec s) as [->|(c & r & -> & Hc)]; [done|].
  destruct (rstrip_cons c r Hc) as [l El]. rewrite El.
  rewrite (lstrip_fixed (c :: l)) by (right; eauto).
  rewrite <- El. apply rstrip_idem.
Qed.

(** ** Further properties of rendering *)

Lemma split_cons_inv (sep : N) (s : pystr) : ∃ l ls, split sep s = l :: ls.
Proof.
  induction s as [|c s IH]; cbn [split]; [eauto|].
  destruct (c =? sep); [eauto|]. destruct IH as (l & ls & ->). eauto.
Qed.

(** X13: [create_pdf] loops over the lines of the report: no line holds a
    line break, there is one line more than there are line breaks in the
    report, and joining the lines with line breaks gives the report back. *)
Theorem split_lines_round_trip (report_text : pystr) :
  join nl (split 10 report_text) = report_text
  ∧ Forall (fun line => 10 ∉ line) (split 10 report_text)
  ∧ length (split 10 report_text) = S (count_occ N.eq_dec report_text 10).
Proof.
  induction report_text as [|c s (IH1 & IH2 & IH3)].
  - split; [done|]. split; [|done]. repeat constructor. apply not_elem_of_nil.
  - cbn [split count_occ]. destruct (N.eqb_spec c 10) as [->|Hne].
    + destruct (N.eq_dec 10 10) as [_|]; [|done].
      split; [|split].
      * destruct (split_cons_inv 10 s) as (l & ls & E). rewrite E in *.
        change (join nl ([] :: l :: ls)) with (nl ++ join nl (l :: ls)).
        by rewrite IH1.
      * constructor; [apply not_elem_of_nil | done].
      * cbn [length]. by rewrite IH3.
    + destruct (N.eq_dec c 10) as [|_]; [done|].
      destruct (split_cons_inv 10 s) as (l & ls & E). rewrite E in *.
      split; [|split].
      * rewrite <- IH1. by destruct ls.
      * apply Forall_cons in IH2 as [Hl Hls]. constructor; [|done].
        intros [?|?]%elem_of_cons; done.
      * done.
Qed.

Lemma replace_bold_step (s : pystr) :
  replace (py "**") [] s
  = match s with
    | [] => []
    | c :: r =>
      match r with
      | d :: r' =>
        if (c =? 42) && (d =? 42) then replace (py "**") [] r'
        else c :: replace (py "**") [] r
      | [] => [c]
      end
    end.
Proof.
  unfold replace. change (py "**") with [42; 42].
  destruct s as [|c [|d r']]; [done | |].
  - cbn [replace_from]. unfold startswith. cbn [Json.strip_prefix].
    destruct (42 =? c); reflexivity.
  - cbn [replace_from]. unfold startswith. cbn [Json.strip_prefix].
    rewrite (N.eqb_sym 42 c), (N.eqb_sym 42 d).
    destruct (c =? 42); [|reflexivity]. destruct (d =? 42); reflexivity.
Qed.

Lemma replace_bold_clean (n : nat) :
  ∀ s, (length s ≤ n)%nat →
  (∀ l1 l2, replace (py "**") [] s ≠ l1 ++ 42 :: 42 :: l2)
  ∧ (∀ r, replace (py "**") [] s = 42 :: r → ∃ r0, s = 42 :: r0).
Proof.
  induction n as [|n IH]; intros s Hn.
  - destruct s; [|cbn in Hn; lia]. split; [intros [|] ?; discriminate | discriminate].
  - rewrite replace_bold_step. destruct s as [|c [|d r']].
    + split; [intros [|] ?; discriminate | discriminate].
    + split.
      * intros [|? [|]] ?; discriminate.
      * intros r [= -> <-]. eauto.
    + cbn [length] in Hn.
      destruct (IH r' ltac:(lia)) as [IHa IHb].
      destruct (IH (d :: r') ltac:(cbn; lia)) as [IHc IHd].
      destruct ((c =? 42) && (d =? 42)) eqn:E.
      * split; [exact IHa|]. intros r _.
        apply andb_prop in E as [Hc%N.eqb_eq _]. subst c. eauto.
      * split.
        -- intros [|x l1] l2.
           ++ cbn [app]. intros [= -> H]. apply IHd in H as (r0 & [= -> _]).
              by rewrite !N.eqb_refl in E.
           ++ cbn [app]. intros [= _ H]. by apply IHc in H.
        -- intros r [= -> _]. eauto.
Qed.

(** X14: the text of every paragraph that [create_pdf] draws for a line
    holds no pair of adjacent asterisks: the emphasis markers are all
    removed, also those that removing others brings together. *)
Theorem paragraphs_have_no_bold_marker (line : pystr) (w h : Z) (txt : pystr) :
  MultiCell w h txt ∈ render_line line →
  ∀ l1 l2, txt ≠ l1 ++ py "**" ++ l2.
Proof.
  unfold render_line.
  destruct (negb (truthy (strip line))).
  { intros [?|?%elem_of_nil]%elem_of_cons; [discriminate | done]. }
  destruct (startswith (py "#") (strip line)).
  { intros H. apply elem_of_cons in H as [H|H].
    { destruct (_ =? 1)%Z; [discriminate|]. destruct (_ =? 2)%Z; discriminate. }
    repeat (apply elem_of_cons in H as [H|H]; [discriminate|]).
    by apply elem_of_nil in H. }
  intros H. apply elem_of_cons in H as [[= _ _ ->]|H].
  - apply (replace_bold_clean (length (strip line)) (strip line)). done.
  - apply elem_of_cons in H as [H|H]; [discriminate | by apply elem_of_nil in H].
Qed.

Lemma paragraphs_have_no_bold_marker_witness :
  replace (py "**") [] (py "a***b** **c") ≠ py "a*b " ++ py "**" ++ py "c".
Proof.
  apply (paragraphs_have_no_bold_marker (py "  a***b** **c ") 0 10).
  vm_compute. by left.
Defined.

Lemma font_after_app (f : font) (a b : list fpdf_call) :
  font_after f (a ++ b) = font_after (font_after f a) b.
Proof. unfold font_after. apply fold_left_app. Qed.

Lemma paragraph_fonts_app (a : list fpdf_call) :
  ∀ (f : font) (b : list fpdf_call),
  paragraph_fonts f (a ++ b)
  = paragraph_fonts f a ++ paragraph_fonts (font_after f a) b.
Proof.
  induction a as [|c a IH]; intros f b; [done|].
  destruct c; cbn [app paragraph_fonts font_after fold_left]; try apply IH.
  fold (font_after f a). f_equal. apply IH.
Qed.

Lemma render_line_fonts (line : pystr) :
  font_after body_font (render_line line) = body_font
  ∧ Forall (eq body_font) (paragraph_fonts body_font (render_line line)).
Proof.
  unfold render_line.
  destruct (negb (truthy (strip line))); [by split|].
  destruct (startswith (py "#") (strip line)).
  - destruct (_ =? 1)%Z; [by split|]. destruct (_ =? 2)%Z; by split.
  - split; [done|]. by repeat constructor.
Qed.

Lemma render_lines_fonts (lines : list pystr) :
  font_after body_font (flat_map render_line lines) = body_font
  ∧ Forall (eq body_font) (paragraph_fonts body_font (flat_map render_line lines)).
Proof.
  induction lines as [|line lines [IH1 IH2]]; [by split|].
  cbn [flat_map]. destruct (render_line_fonts line) as [H1 H2].
  rewrite font_after_app, paragraph_fonts_app, H1.
  split; [done|]. by apply Forall_app.
Qed.

(** X15: among the calls [create_pdf] issues, every paragraph is issued
    while the body font (Times, regular, 12) is selected, whatever headings
    come before it, and the body font is the one selected at the end. *)
Theorem paragraphs_in_body_font (current_year : Z)
    (today report_text company_name standard : pystr) (f0 : font) :
  Forall (eq body_font)
    (paragraph_fonts f0
       (create_pdf_calls current_year today report_text company_name standard))
  ∧ font_after f0
      (create_pdf_calls current_year today report_text company_name standard)
    = body_font.
Proof.
  unfold create_pdf_calls, pdf_init. cbn [app].
  destruct (render_lines_fonts (split 10 report_text)) as [H1 H2].
  split.
  - cbn [paragraph_fonts]. exact H2.
  - cbn [font_after fold_left]. exact H1.
Qed.

Lemma lstrip_char_replicate (k : nat) (rest : pystr) :
  (∀ r, rest ≠ 35 :: r) →
  lstrip_char 35 (replicate k 35 ++ rest) = rest.
Proof.
  intros Hr. induction k as [|k IH]; cbn [replicate app lstrip_char].
  - destruct rest as [|c r]; [done|]. cbn [lstrip_char].
    destruct (N.eqb_spec c 35) as [->|]; [by destruct (Hr r) | done].
  - by rewrite N.eqb_refl.
Qed.

(** X16: a line that, once trimmed, is k number signs (k at least 1)
    followed by a text that does not start with one is drawn as a heading:
    bold Times of size 16 for k = 1, 14 for k = 2 and 12 for any larger k,
    one cell with the text after the number signs, trimmed, then the body
    font again. *)
Theorem heading_level_and_text (line rest : pystr) (k : nat) :
  strip line = replicate (S k) 35 ++ rest →
  (∀ r, rest ≠ 35 :: r) →
  render_line line
  = [ SetFont (py "Times") (py "B")
        (match k with O => 16 | S O => 14 | S (S _) => 12 end)%Z;
      Cell 0 10 (strip rest) true [];
      Ln 2;
      SetFont (py "Times") [] 12 ].
Proof.
  intros Hs Hr. unfold render_line. rewrite Hs.
  rewrite (lstrip_char_replicate (S k) rest Hr).
  cbn [replicate app truthy negb]. unfold startswith. cbn [py Json.strip_prefix
    list_ascii_of_string List.map]. cbn.
  rewrite length_app, length_replicate.
  replace (Z.of_nat (S (k + length rest)) - Z.of_nat (length rest))%Z
    with (Z.of_nat (S k)) by lia.
  destruct k as [|[|k]]; [reflexivity | reflexivity |].
  destruct (Z.eqb_spec (Z.of_nat (S (S (S k)))) 1); [lia|].
  destruct (Z.eqb_spec (Z.of_nat (S (S (S k)))) 2); [lia|]. reflexivity.
Qed.

Lemma heading_level_and_text_witness :
  render_line (py "  ### Scope 3 emissions  ")
  = [ SetFont (py "Times") (py "B") 12;
      Cell 0 10 (py "Scope 3 emissions") true [];
      Ln 2;
      SetFont (py "Times") [] 12 ].
Proof.
  refine (eq_trans (heading_level_and_text (py "  ### Scope 3 emissions  ")
                      (py " Scope 3 emissions") 2 _ _) _).
  - reflexivity.
  - discriminate.
  - reflexivity.
Defined.

(** X17: the final pass keeps the length of a page, leaves a page of
    Latin-1 characters as it is, and running it twice is running it once. *)
Theorem sanitize_page_stable (page : pystr) :
  length (sanitize_page page) = length page
  ∧ sanitize_page (sanitize_page page) = sanitize_page page
  ∧ (Forall (fun c => c < 256) page → sanitize_page page = page).
Proof.
  rewrite !sanitize_page_chars. split; [apply length_map|]. split.
  - rewrite List.map_map. apply List.map_ext. intros c.
    destruct (sanitize_char_clean c) as (H1 & H2 & H3).
    unfold sanitize_char at 1.
    rewrite (proj2 (N.eqb_neq _ _) H3), (proj2 (N.eqb_neq _ _) H2),
      (proj2 (N.eqb_neq _ _) H1). done.
  - intros Hp. induction Hp as [|c p Hc _ IH]; [done|]. cbn [List.map].
    rewrite IH. f_equal. unfold sanitize_char.
    rewrite (proj2 (N.eqb_neq c 8217)), (proj2 (N.eqb_neq c 8212)),
      (proj2 (N.eqb_neq c 8211)) by lia. done.
Qed.

Lemma encode_byte_value (c : N) :
  c < 256 →
  Byte.to_N (match Byte.of_N c with Some b => b | None => Byte.x3f end) = c.
Proof.
  intros Hc. destruct (Byte.of_N c) as [b|] eqn:E.
  - exact (Byte.to_of_N c E).
  - apply Byte.of_N_None_iff in E. lia.
Qed.

(** X18: the encoding keeps the length of the text and loses nothing on
    Latin-1 text (decoding its bytes gives the text back); after the final
    pass, it loses nothing either on a page made of Latin-1 characters, en
    and em dashes and right single quotation marks: its bytes are the
    characters of the page with those three replaced. *)
Theorem encode_latin1_lossless (text : pystr) :
  length (encode_latin1_replace text) = length text
  ∧ (Forall (fun c => c < 256) text →
     List.map Byte.to_N (encode_latin1_replace text) = text)
  ∧ (Forall renderable text →
     List.map Byte.to_N (encode_latin1_replace (sanitize_page text))
     = List.map sanitize_char text).
Proof.
  assert (Hround : ∀ s, Forall (fun c => c < 256) s →
            List.map Byte.to_N (encode_latin1_replace s) = s).
  { intros s Hs. unfold encode_latin1_replace. rewrite List.map_map.
    induction Hs as [|c s Hc _ IH]; [done|]. cbn [List.map].
    by rewrite IH, encode_byte_value. }
  split; [apply length_map|]. split; [apply Hround|].
  intros Hr. rewrite sanitize_page_chars. apply Hround.
  apply Forall_forall. intros x [c [<- Hc%list_elem_of_In]]%list_elem_of_In%in_map_iff.
  rewrite Forall_forall in Hr. specialize (Hr c Hc). unfold renderable in Hr.
  unfold sanitize_char.
  destruct (N.eqb_spec c 8217); [done|]. destruct (N.eqb_spec c 8212); [done|].
  destruct (N.eqb_spec c 8211); [done|]. lia.
Qed.

Lemma encode_latin1_lossless_witness :
  List.map Byte.to_N
    (encode_latin1_replace (sanitize_page (py "it" ++ [8217] ++ py "s " ++ [8212; 233])))
  = py "it's -" ++ [233].
Proof.
  refine (eq_trans (proj2 (proj2 (encode_latin1_lossless
                      (py "it" ++ [8217] ++ py "s " ++ [8212; 233]))) _) _).
  - unfold renderable. repeat constructor; (by left) || (by right; right; right)
      || (by right; right; left).
  - reflexivity.
Defined.

(** ** The session of [main] *)

Lemma questions_length : length questions = 24%nat.
Proof. by vm_compute. Qed.

Lemma py_index_in_range {A : Type} (l : list A) (i : Z) :
  (0 ≤ i < Z.of_nat (length l))%Z →
  ∃ x, py_index l i = Ok x ∧ l !! Z.to_nat i = Some x.
Proof.
  intros Hi. unfold py_index.
  rewrite (proj2 (Z.ltb_ge i 0)) by lia.
  rewrite (proj2 (Z.leb_le 0 i)), (proj2 (Z.ltb_lt i _)) by lia. cbn [andb].
  destruct (l !! Z.to_nat i) as [x|] eqn:E; [eauto|].
  apply lookup_ge_None in E. lia.
Qed.

Lemma question_key_member (i : nat) (key question_text : pystr) :
  questions !! i = Some (key, question_text) → key ∈ questions.*1.
Proof.
  intros H. apply list_elem_of_fmap. exists (key, question_text).
  split; [done|]. by eapply list_elem_of_lookup_2.
Qed.

(** X19: the questionnaire flow keeps the session well formed and never
    fails: from a session whose step is between 0 and 24 and whose answers
    are all under questionnaire keys, it reaches such a session again, its
    index into [questions] is always in range, the step moves by at most
    one, and nothing but the step, the mode and the answers changes. *)
Theorem questionnaire_flow_safe (s : session) (back : bool)
    (user_input : pystr) (submitted : bool) :
  session_ok s →
  (questionnaire_flow s back user_input submitted).2 = None
  ∧ session_ok (questionnaire_flow s back user_input submitted).1
  ∧ (step s - 1 ≤ step (questionnaire_flow s back user_input submitted).1
     ≤ step s + 1)%Z
  ∧ generated_report (questionnaire_flow s back user_input submitted).1
    = generated_report s
  ∧ current_standard (questionnaire_flow s back user_input submitted).1
    = current_standard s
  ∧ compliance_result (questionnaire_flow s back user_input submitted).1
    = compliance_result s.
Proof.
  intros [Hstep Hkeys]. unfold questionnaire_flow.
  destruct (bool_decide _ && _) eqn:Hguard; cbn [fst snd].
  2: { repeat split; try done; lia. }
  apply andb_prop in Hguard as [_ Hlt%Z.ltb_lt].
  set (s1 := if back then
               if (0 <? step s)%Z then set_step s (step s - 1) else set_mode s None
             else s).
  assert (H1 : (0 ≤ step s1 < Z.of_nat (length questions))%Z
               ∧ (step s - 1 ≤ step s1 ≤ step s)%Z
               ∧ report_data s1 = report_data s
               ∧ generated_report s1 = generated_report s
               ∧ current_standard s1 = current_standard s
               ∧ compliance_result s1 = compliance_result s).
  { subst s1. destruct back; [|repeat split; try done; lia].
    destruct (Z.ltb_spec 0 (step s)); cbn; repeat split; try done; lia. }
  destruct H1 as (Hs1 & Hd & Hrd & Hg & Hc & Hr). clearbody s1.
  destruct (py_index_in_range questions (step s1) Hs1) as ([key q] & -> & Hq).
  destruct (submitted && truthy (strip user_input)); cbn [fst snd].
  - split; [done|]. split; [split|].
    + cbn [step set_step set_report_data]. lia.
    + cbn [report_data set_step set_report_data]. intros k.
      rewrite dom_insert_L, elem_of_union, elem_of_singleton.
      intros [->|Hk]; [by eapply question_key_member | apply Hkeys; by rewrite <- Hrd].
    + cbn [step set_step generated_report current_standard compliance_result
             set_report_data]. repeat split; try done; lia.
  - split; [done|]. split; [split|].
    + lia.
    + intros k. rewrite Hrd. apply Hkeys.
    + repeat split; try done; lia.
Qed.

Lemma questionnaire_flow_safe_witness :
  (questionnaire_flow (set_step questionnaire_start 23) false (py " done ") true).2
  = None
  ∧ step (questionnaire_flow (set_step questionnaire_start 23) false
            (py " done ") true).1 = 24%Z.
Proof.
  split; [|reflexivity].
  apply (questionnaire_flow_safe (set_step questionnaire_start 23) false
           (py " done ") true).
  split; [by vm_compute|]. intros k Hk. cbn in Hk. by apply elem_of_empty in Hk.
Defined.

Lemma questionnaire_flow_submit (s : session) (user_input : pystr) (i : nat)
    (key question_text : pystr) :
  mode s = Some (py "questionnaire") →
  step s = Z.of_nat i →
  questions !! i = Some (key, question_text) →
  questionnaire_flow s false user_input true
  = (if truthy (strip user_input)
     then set_step (set_report_data s (<[key := strip user_input]> (report_data s)))
                   (step s + 1)
     else s, None).
Proof.
  intros Hm Hs Hq. unfold questionnaire_flow.
  pose proof (lookup_lt_Some _ _ _ Hq) as Hi.
  rewrite Hm, bool_decide_eq_true_2 by done.
  rewrite (proj2 (Z.ltb_lt (step s) _)) by lia. cbn [andb].
  destruct (py_index_in_range questions (step s) ltac:(lia)) as (x & -> & Hx).
  rewrite Hs, Nat2Z.id, Hq in Hx. injection Hx as <-.
  by destruct (truthy (strip user_input)).
Qed.

Lemma truthy_nonempty (s : pystr) : truthy s = true ↔ s ≠ [].
Proof. by destruct s. Qed.

Lemma answered_keys_member (report_data : gmap pystr pystr) (key v : pystr) :
  key ∈ questions.*1 → report_data !! key = Some v → strip v ≠ [] →
  key ∈ answered_keys report_data.
Proof.
  intros [q [-> Hq]]%list_elem_of_fmap Hv Hs. unfold answered_keys.
  apply list_elem_of_In, in_map, filter_In. split; [by apply list_elem_of_In|].
  unfold dict_get. rewrite Hv. by apply truthy_nonempty.
Qed.

(** X20: submitting the form at question i stores nothing and stays at the
    question when the input is blank after trimming; otherwise it stores the
    trimmed input under the key of question i, moves to the next question,
    and the stored answer, trimmed already, makes the slot one of the
    answered slots of [generate_full_report]. *)
Theorem submitted_answer_is_counted (s : session) (user_input : pystr)
    (i : nat) (key question_text : pystr) :
  mode s = Some (py "questionnaire") →
  step s = Z.of_nat i →
  questions !! i = Some (key, question_text) →
  (strip user_input = [] →
   (questionnaire_flow s false user_input true).1 = s)
  ∧ (strip user_input ≠ [] →
     step (questionnaire_flow s false user_input true).1 = (step s + 1)%Z
     ∧ report_data (questionnaire_flow s false user_input true).1
       = <[key := strip user_input]> (report_data s)
     ∧ strip (strip user_input) = strip user_input
     ∧ key ∈ answered_keys
               (report_data (questionnaire_flow s false user_input true).1)).
Proof.
  intros Hm Hs Hq.
  rewrite (questionnaire_flow_submit s user_input i key question_text Hm Hs Hq).
  cbn [fst]. split.
  - by intros ->.
  - intros Hne. rewrite (proj2 (truthy_nonempty _) Hne).
    cbn [step report_data set_step set_report_data].
    split; [done|]. split; [done|]. split; [apply strip_idem|].
    apply (answered_keys_member _ key (strip user_input)).
    + by eapply question_key_member.
    + apply lookup_insert_eq.
    + by rewrite strip_idem.
Qed.

Lemma submitted_answer_is_counted_witness :
  report_data (questionnaire_flow questionnaire_start false (py "  Acme Ltd ") true).1
  = <[py "company_name" := py "Acme Ltd"]> ∅.
Proof.
  refine (eq_trans (proj1 (proj2 (proj2 (submitted_answer_is_counted
            questionnaire_start (py "  Acme Ltd ") 0 (py "company_name")
            (py "What is the name of your company?") eq_refl eq_refl _) _))) _).
  - vm_compute. reflexivity.
  - discriminate.
  - reflexivity.
Defined.

Lemma questions_key_index (i j : nat) (key q1 q2 : pystr) :
  questions !! i = Some (key, q1) → questions !! j = Some (key, q2) → i = j.
Proof.
  intros Hi Hj.
  apply (NoDup_lookup (questions.*1) i j key tables_slots_distinct);
    rewrite list_lookup_fmap; [by rewrite Hi | by rewrite Hj].
Qed.

Lemma submit_all_spec (inputs : list pystr) :
  ∀ (s : session) (j : nat),
  mode s = Some (py "questionnaire") →
  step s = Z.of_nat j →
  (j + length inputs ≤ 24)%nat →
  Forall (fun input => strip input ≠ []) inputs →
  mode (submit_all inputs s) = Some (py "questionnaire")
  ∧ step (submit_all inputs s) = Z.of_nat (j + length inputs)
  ∧ (∀ i key q input, inputs !! i = Some input →
       questions !! (j + i)%nat = Some (key, q) →
       report_data (submit_all inputs s) !! key = Some (strip input))
  ∧ (∀ key, (∀ i q, (j ≤ i)%nat → questions !! i ≠ Some (key, q)) →
       report_data (submit_all inputs s) !! key = report_data s !! key).
Proof.
  induction inputs as [|input inputs IH]; intros s j Hm Hs Hlen Hin.
  - cbn. rewrite Nat.add_0_r. repeat split; done.
  - cbn [length] in Hlen. apply Forall_cons in Hin as [Hne Hin].
    assert (Hj : (j < length questions)%nat) by (rewrite questions_length; lia).
    destruct (lookup_lt_is_Some_2 _ _ Hj) as [[key0 q0] Hq0].
    unfold submit_all. cbn [fold_left].
    rewrite (questionnaire_flow_submit s input j key0 q0 Hm Hs Hq0).
    rewrite (proj2 (truthy_nonempty _) Hne). cbn [fst].
    set (s1 := set_step (set_report_data s (<[key0 := strip input]> (report_data s)))
                        (step s + 1)).
    fold (submit_all inputs s1).
    destruct (IH s1 (S j) Hm ltac:(subst s1; cbn; lia) ltac:(lia) Hin)
      as (IHm & IHs & IHv & IHo).
    split; [done|]. split; [rewrite IHs; cbn [length]; f_equal; lia|]. split.
    + intros [|i] key q inp Hinp Hq.
      * cbn in Hinp. injection Hinp as <-. rewrite Nat.add_0_r, Hq0 in Hq.
        injection Hq as <- <-. rewrite IHo.
        -- subst s1. cbn. apply lookup_insert_eq.
        -- intros i q Hi Hq. pose proof (questions_key_index _ _ _ _ _ Hq0 Hq). lia.
      * cbn in Hinp. apply (IHv i key q inp Hinp).
        by replace (S j + i)%nat with (j + S i)%nat by lia.
    + intros key Hkey. rewrite IHo.
      * subst s1. cbn. apply lookup_insert_ne. intros <-.
        by apply (Hkey j q0).
      * intros i q Hi. apply Hkey. lia.
Qed.

Lemma filter_all {A} (f : A → bool) (l : list A) :
  (∀ x, x ∈ l → f x = true) → List.filter f l = l.
Proof.
  induction l as [|x l IH]; intros Hall; [done|]. cbn [List.filter].
  rewrite Hall by left. f_equal. apply IH. intros y Hy. apply Hall. by right.
Qed.

(** X21: answering the 24 questions in turn, each with an input that is
    not blank, leads from the start of the questionnaire to step 24, the
    review stage; every slot then holds its input, trimmed, and all 24 slots
    are answered slots for [generate_full_report]. *)
Theorem full_questionnaire_answers_every_slot (inputs : list pystr) :
  length inputs = 24%nat →
  Forall (fun input => strip input ≠ []) inputs →
  step (submit_all inputs questionnaire_start) = 24%Z
  ∧ (∀ i key q input, questions !! i = Some (key, q) →
       inputs !! i = Some input →
       report_data (submit_all inputs questionnaire_start) !! key
       = Some (strip input))
  ∧ answered_keys (report_data (submit_all inputs questionnaire_start))
    = questions.*1.
Proof.
  intros Hlen Hin.
  destruct (submit_all_spec inputs questionnaire_start 0 eq_refl eq_refl
              ltac:(lia) Hin) as (_ & Hs & Hv & _).
  split; [rewrite Hs, Hlen; reflexivity|].
  assert (Hv' : ∀ i key q input, questions !! i = Some (key, q) →
            inputs !! i = Some input →
            report_data (submit_all inputs questionnaire_start) !! key
            = Some (strip input)) by (intros; by eapply (Hv i)).
  split; [exact Hv'|].
  unfold answered_keys. f_equal.
  assert (Hall : ∀ q, q ∈ questions →
            truthy (strip (dict_get (report_data (submit_all inputs questionnaire_start))
                             q.1 [])) = true).
  { intros [key q] [i Hi]%list_elem_of_lookup_1.
    assert (Hi' : (i < length inputs)%nat).
    { rewrite Hlen, <- questions_length. by eapply lookup_lt_Some. }
    destruct (lookup_lt_is_Some_2 _ _ Hi') as [input Hinput].
    unfold dict_get. cbn [fst]. rewrite (Hv' i key q input Hi Hinput).
    rewrite strip_idem. apply truthy_nonempty.
    rewrite Forall_forall in Hin. apply Hin. by eapply list_elem_of_lookup_2. }
  by apply filter_all.
Qed.

Lemma full_questionnaire_answers_every_slot_witness :
  step (submit_all (replicate 24 (py " yes ")) questionnaire_start) = 24%Z.
Proof.
  apply (full_questionnaire_answers_every_slot (replicate 24 (py " yes "))).
  - reflexivity.
  - by apply Forall_replicate.
Defined.

(** X22: an upload always leads to the review stage: whatever the file,
    also one that cannot be read, the step becomes 24 and the mode stays;
    the answers of the file are laid over the earlier ones, which are kept
    where the file has none; the keys stay keys of the questionnaire; and
    an unreadable file changes no answer and reports one error. *)
Theorem upload_reaches_review {udb : UnicodeDB} (s : session)
    (file : result DataFrame) (t : trace) :
  session_ok s →
  session_ok (upload_block s (Some file) t).1
  ∧ step (upload_block s (Some file) t).1 = 24%Z
  ∧ mode (upload_block s (Some file) t).1 = mode s
  ∧ (∀ k, report_data (upload_block s (Some file) t).1 !! k
          = match (parse_uploaded_excel file t).1 !! k with
            | Some v => Some v
            | None => report_data s !! k
            end)
  ∧ (∀ e, file = Raise e →
       report_data (upload_block s (Some file) t).1 = report_data s
       ∧ (upload_block s (Some file) t).2
         = t ++ [StError (py "Error processing Excel file: " ++ e)]).
Proof.
  intros [Hstep Hkeys]. unfold upload_block, bind, ret.
  pose proof (parse_keys_in_table file t) as Hparsed.
  assert (Hraise : ∀ e, file = Raise e →
            parse_uploaded_excel file t
            = (∅, t ++ [StError (py "Error processing Excel file: " ++ e)])).
  { by intros e ->. }
  destruct (parse_uploaded_excel file t) as [parsed t']. unfold session_ok.
  cbn [fst snd step mode report_data set_step set_report_data] in *.
  split; [split|].
  - rewrite questions_length. lia.
  - intros k. rewrite dom_union_L, elem_of_union.
    intros [Hk|Hk]; [by apply Hparsed | by apply Hkeys].
  - split; [by rewrite questions_length|]. split; [done|]. split.
    + intros k. rewrite lookup_union.
      by destruct (parsed !! k), (report_data s !! k).
    + intros e He. specialize (Hraise e He). injection Hraise as -> ->.
      split; [apply (left_id_L ∅ (∪))|done].
Qed.

Lemma upload_reaches_review_witness :
  step (@upload_block ascii_db initial_session (Some (Raise (py "not a workbook"))) []).1
  = 24%Z.
Proof.
  apply (@upload_reaches_review ascii_db initial_session
           (Raise (py "not a workbook")) []).
  split; [by vm_compute|]. intros k Hk. cbn in Hk. by apply elem_of_empty in Hk.
Defined.

Lemma review_fold (edited : pystr -> pystr -> pystr) (qs : list (pystr * pystr)) :
  NoDup (qs.*1) →
  ∀ s : session,
  (∀ key q, (key, q) ∈ qs →
     report_data
       (fold_left
          (fun s q =>
             set_report_data s
               (<[fst q := edited (snd q) (dict_get (report_data s) (fst q) [])]>
                  (report_data s))) qs s) !! key
     = Some (edited q (dict_get (report_data s) key [])))
  ∧ (∀ k, k ∉ qs.*1 →
     report_data
       (fold_left
          (fun s q =>
             set_report_data s
               (<[fst q := edited (snd q) (dict_get (report_data s) (fst q) [])]>
                  (report_data s))) qs s) !! k
     = report_data s !! k)
  ∧ (∀ (A : Type) (field : session → A),
       (∀ s m, field (set_report_data s m) = field s) →
       field
         (fold_left
            (fun s q =>
               set_report_data s
                 (<[fst q := edited (snd q) (dict_get (report_data s) (fst q) [])]>
                    (report_data s))) qs s)
       = field s).
Proof.
  induction qs as [|[k0 q0] qs IH]; intros Hnd s.
  - cbn. split; [|done]. intros key q Hin. by apply elem_of_nil in Hin.
  - cbn [fmap list_fmap fst] in Hnd. apply NoDup_cons in Hnd as [Hk0 Hnd].
    cbn [fold_left fst snd].
    set (s1 := set_report_data s _).
    destruct (IH Hnd s1) as (IHv & IHo & IHf).
    assert (Hs1 : ∀ k, k ≠ k0 → report_data s1 !! k = report_data s !! k).
    { intros k Hk. subst s1. cbn. by apply lookup_insert_ne. }
    split; [|split].
    + intros key q [Heq|Hin]%elem_of_cons.
      * injection Heq as -> ->. rewrite (IHo k0 Hk0). subst s1. cbn.
        apply lookup_insert_eq.
      * rewrite (IHv key q Hin). do 2 f_equal. unfold dict_get.
        rewrite Hs1; [done|]. intros ->. apply Hk0.
        apply list_elem_of_fmap. by exists (k0, q).
    + intros k Hk. cbn [fmap list_fmap fst] in Hk.
      apply not_elem_of_cons in Hk as [Hne Hk]. rewrite (IHo k Hk). by apply Hs1.
    + intros A field Hfield. rewrite (IHf A field Hfield). subst s1. apply Hfield.
Qed.

Lemma dict_get_lookup (d : gmap pystr pystr) (key default v : pystr) :
  d !! key = Some v → dict_get d key default = v.
Proof. unfold dict_get. by intros ->. Qed.

(** X23: after the review stage every key of the questionnaire is in the
    answers, holding what its text area returned for the value it was shown
    (the earlier answer, or the empty text); so a lookup with a default
    never gives the default for such a key.  The other keys, the step and
    the mode are as before. *)
Theorem review_fills_every_slot (s : session) (edited : pystr -> pystr -> pystr) :
  (∀ key q default, (key, q) ∈ questions →
     report_data (review_block s edited) !! key
     = Some (edited q (dict_get (report_data s) key []))
     ∧ dict_get (report_data (review_block s edited)) key default
       = edited q (dict_get (report_data s) key []))
  ∧ (∀ k, k ∉ questions.*1 →
       report_data (review_block s edited) !! k = report_data s !! k)
  ∧ step (review_block s edited) = step s
  ∧ mode (review_block s edited) = mode s.
Proof.
  destruct (review_fold edited questions tables_slots_distinct s)
    as (Hv & Ho & Hf).
  unfold review_block. split; [|split; [exact Ho|split]].
  - intros key q default Hin. split; [by apply Hv|].
    by apply dict_get_lookup, Hv.
  - apply (Hf Z step). reflexivity.
  - apply (Hf _ mode). reflexivity.
Qed.

Lemma unedited_same_answer (s : session) (key : pystr) :
  key ∈ questions.*1 →
  same_answer (report_data (review_block s unedited)) (report_data s) key.
Proof.
  intros [[k q] [-> Hq]]%list_elem_of_fmap. left. cbn [fst].
  destruct (review_fold unedited questions tables_slots_distinct s) as (Hv & _).
  unfold review_block. exact (dict_get_lookup _ _ _ _ (Hv k q Hq)).
Qed.

Lemma generate_full_report_same_answers
    (llm : pystr -> nat -> pystr -> result pystr)
    (rd1 rd2 : gmap pystr pystr) (standard : pystr) (t : trace) :
  (∀ key, key ∈ questions.*1 → same_answer rd1 rd2 key) →
  generate_full_report llm rd1 standard t = generate_full_report llm rd2 standard t.
Proof.
  intros Hq. unfold generate_full_report. rewrite (answered_ext rd1 rd2 Hq).
  destruct (_ =? 0)%Z; [done|]. unfold bind, emit.
  apply report_loop_ext. intros q Hin. apply Hq, list_elem_of_fmap. eauto.
Qed.

(** X24: a review in which no text area is edited does not change what
    generation does: the report and the events (calls, errors, progress)
    are those of the answers before the review, although the review has
    added every missing key with the empty text. *)
Theorem unedited_review_is_invisible
    (llm : pystr -> nat -> pystr -> result pystr)
    (s : session) (standard : pystr) (t : trace) :
  generate_full_report llm (report_data (review_block s unedited)) standard t
  = generate_full_report llm (report_data s) standard t.
Proof.
  apply generate_full_report_same_answers. intros key Hkey.
  by apply unedited_same_answer.
Qed.

Lemma generate_block_spec (llm : pystr -> nat -> pystr -> result pystr)
    (s : session) (t : trace) :
  generate_block llm s t
  = (set_generated_report (set_current_standard s (py "GRI"))
       (generate_full_report llm (report_data s) (py "GRI") t).1,
     (generate_full_report llm (report_data s) (py "GRI") t).2).
Proof.
  unfold generate_block, bind, ret. cbn [report_data set_current_standard].
  by destruct (generate_full_report llm (report_data s) (py "GRI") t).
Qed.

Lemma calls_for_complete_answers (llm : pystr -> nat -> pystr -> result pystr)
    (rd : gmap pystr pystr) (standard : pystr) (inputs : list pystr) :
  length inputs = 24%nat →
  Forall (fun input => strip input ≠ []) inputs →
  (∀ i key q input, inputs !! i = Some input →
     questions !! i = Some (key, q) → rd !! key = Some (strip input)) →
  List.filter is_llm_call (run (generate_full_report llm rd standard)).2
  = zip_with (call_for standard) questions inputs.
Proof.
  intros Hlen Hin Hv.
  assert (Hall : answered rd = questions).
  { apply filter_all. intros [key q] [i Hi]%list_elem_of_lookup_1.
    assert (Hi' : (i < length inputs)%nat).
    { rewrite Hlen, <- questions_length. by eapply lookup_lt_Some. }
    destruct (lookup_lt_is_Some_2 _ _ Hi') as [input Hinput].
    unfold dict_get. cbn [fst]. rewrite (Hv i key q input Hinput Hi).
    rewrite strip_idem. apply truthy_nonempty.
    rewrite Forall_forall in Hin. apply Hin. by eapply list_elem_of_lookup_2. }
  assert (Hne : answered rd ≠ []).
  { rewrite Hall. intros E. pose proof questions_length as Hl.
    rewrite E in Hl. discriminate. }
  pose proof (generate_full_report_spec llm rd standard Hne) as E.
  destruct (run (generate_full_report llm rd standard)) as [out tr].
  cbn [fst snd]. injection E as -> ->.
  rewrite llm_filter_progress, llm_events_loop, Hall.
  apply list_eq. intros i.
  change (List.map ?f ?l) with (f <$> l).
  rewrite list_lookup_fmap, lookup_zip_with.
  destruct (questions !! i) as [[key q]|] eqn:Hq; [|reflexivity].
  assert (Hi' : (i < length inputs)%nat).
  { rewrite Hlen, <- questions_length. by eapply lookup_lt_Some. }
  destruct (lookup_lt_is_Some_2 _ _ Hi') as [input Hinput]. rewrite Hinput.
  cbn [fmap option_fmap option_map mbind option_bind].
  unfold call_for, prompt_of, dict_get. cbn [fst snd].
  by rewrite (Hv i key q input Hinput Hq).
Qed.

(** X25: the questionnaire, the review and the generation together: when
    the 24 questions are answered in turn with inputs that are not blank,
    the review is left unedited and Generate Report is pressed, the service
    is called exactly once per question, in questionnaire order, each prompt
    built for GRI from the question text and the trimmed input; the standard
    of the session becomes GRI and the report is stored in the session. *)
Theorem questionnaire_to_report
    (llm : pystr -> nat -> pystr -> result pystr) (inputs : list pystr) :
  length inputs = 24%nat →
  Forall (fun input => strip input ≠ []) inputs →
  List.filter is_llm_call
    (run (generate_block llm
            (review_block (submit_all inputs questionnaire_start) unedited))).2
  = zip_with (call_for (py "GRI")) questions inputs
  ∧ current_standard
      (run (generate_block llm
              (review_block (submit_all inputs questionnaire_start) unedited))).1
    = py "GRI"
  ∧ generated_report
      (run (generate_block llm
              (review_block (submit_all inputs questionnaire_start) unedited))).1
    = (run (generate_full_report llm
              (report_data (submit_all inputs questionnaire_start)) (py "GRI"))).1.
Proof.
  intros Hlen Hin.
  destruct (submit_all_spec inputs questionnaire_start 0 eq_refl eq_refl
              ltac:(lia) Hin) as (_ & _ & Hv & _).
  pose proof (calls_for_complete_answers llm
                (report_data (submit_all inputs questionnaire_start)) (py "GRI")
                inputs Hlen Hin Hv) as Hcalls.
  clear Hv.
  generalize dependent (submit_all inputs questionnaire_start).
  intros s0 Hcalls.
  unfold run in *.
  rewrite generate_block_spec.
  rewrite (generate_full_report_same_answers llm
             (report_data (review_block s0 unedited)) (report_data s0) (py "GRI") []
             (unedited_same_answer s0)).
  revert Hcalls.
  generalize (generate_full_report llm (report_data s0) (py "GRI") []).
  intros [out tr] Hcalls.
  split; [exact Hcalls|]. split; reflexivity.
Qed.

Lemma questionnaire_to_report_witness :
  current_standard
    (run (generate_block always_succeeds
            (review_block (submit_all (replicate 24 (py " yes ")) questionnaire_start)
               unedited))).1
  = py "GRI".
Proof.
  apply (questionnaire_to_report always_succeeds (replicate 24 (py " yes "))).
  - reflexivity.
  - by apply Forall_replicate.
Defined.
